(** * HemingwayGuard: the Go prototype's decision path

    A shallow embedding of the Go prototype under [projects/hemingway-guard]:
    the analyzer ([internal/analyzer]), the key-event tap and the interceptor
    ([internal/keyboard]), the focus monitor ([internal/accessibility]), the
    target list ([pkg/apps]) and the wiring done by [main].

    Go strings are byte strings: they are [string] here (a list of 8-bit
    [ascii]).  Go's [int] is a 64-bit signed integer: it is a [Z], with the
    wrap-around written where the code computes.  Code that has effects
    returns in [Eff], a writer of the observable actions over a result that
    is either a value or a Go panic. *)

From Stdlib Require Import String Ascii List ZArith NArith QArith Bool Lia.
Import ListNotations.

Open Scope string_scope.
Open Scope Z_scope.

(** ** Go's [strings] package, as far as the analyzer calls it *)

Module Strings.

Definition byte (c : ascii) : N := N_of_ascii c.

(** [asciiSpace] of Go's [strings]: tab, line feed, vertical tab, form
    feed, carriage return and space. *)
Definition asciiSpace (b : N) : bool :=
  (((9 <=? b) && (b <=? 13)) || (b =? 32))%N.

(** The two-byte UTF-8 encodings of U+0085 and U+00A0. *)
Definition space2 (b1 b2 : N) : bool :=
  ((b1 =? 194) && ((b2 =? 133) || (b2 =? 160)))%N.

(** The three-byte UTF-8 encodings of the rest of [unicode.White_Space]:
    U+1680, U+2000..U+200A, U+2028, U+2029, U+202F, U+205F and U+3000. *)
Definition space3 (b1 b2 b3 : N) : bool :=
  (((b1 =? 225) && (b2 =? 154) && (b3 =? 128))
   || ((b1 =? 226) && (b2 =? 128)
       && (((128 <=? b3) && (b3 <=? 138)) || (b3 =? 168) || (b3 =? 169) || (b3 =? 175)))
   || ((b1 =? 226) && (b2 =? 129) && (b3 =? 159))
   || ((b1 =? 227) && (b2 =? 128) && (b3 =? 128)))%N.

(** The width in bytes of the white-space rune ([unicode.IsSpace]) encoded
    at the head of [s], and [0] when [s] does not start with one.  A lead
    byte of UTF-8 is never a continuation byte, so each of these encodings
    starts a rune wherever it occurs, in ill-formed input too. *)
Definition spaceWidth (s : string) : nat :=
  match s with
  | EmptyString => 0%nat
  | String c1 r1 =>
      if asciiSpace (byte c1) then 1%nat
      else match r1 with
           | EmptyString => 0%nat
           | String c2 r2 =>
               if space2 (byte c1) (byte c2) then 2%nat
               else match r2 with
                    | EmptyString => 0%nat
                    | String c3 _ =>
                        if space3 (byte c1) (byte c2) (byte c3) then 3%nat else 0%nat
                    end
           end
      end.

Definition flush (cur : string) : list string :=
  match cur with EmptyString => [] | _ => [cur] end.

(** [skip] counts the bytes still to pass of the white-space rune being
    read; [cur] is the field read so far. *)
Fixpoint fieldsFrom (skip : nat) (cur : string) (s : string) : list string :=
  match s with
  | EmptyString => flush cur
  | String c rest =>
      match skip with
      | S k => fieldsFrom k cur rest
      | O =>
          match spaceWidth s with
          | O => fieldsFrom 0 (cur ++ String c EmptyString) rest
          | S k => flush cur ++ fieldsFrom k EmptyString rest
          end
      end
  end.

(** [strings.Fields]: the maximal runs of bytes between white space. *)
Definition Fields (s : string) : list string := fieldsFrom 0 EmptyString s.

Fixpoint trimLeftFrom (skip : nat) (s : string) : string :=
  match s with
  | EmptyString => EmptyString
  | String _ rest =>
      match skip with
      | S k => trimLeftFrom k rest
      | O =>
          match spaceWidth s with
          | O => s
          | S k => trimLeftFrom k rest
          end
      end
  end.

Definition trimLeft (s : string) : string := trimLeftFrom 0 s.

(** The white-space encodings form a suffix code, so the trailing run that
    Go strips rune by rune from the end is the longest suffix that reads
    as white space from its first byte. *)
Fixpoint trimRight (s : string) : string :=
  match s with
  | EmptyString => EmptyString
  | String c rest =>
      if String.eqb (trimLeft s) EmptyString then EmptyString
      else String c (trimRight rest)
  end.

(** [strings.TrimSpace]. *)
Definition TrimSpace (s : string) : string := trimRight (trimLeft s).

Definition lowerByte (c : ascii) : ascii :=
  let b := byte c in
  if ((65 <=? b) && (b <=? 90))%N then ascii_of_N (b + 32) else c.

(** [strings.ToLower].  ASCII letters are lowered; U+0130 and U+212A, the
    two code points outside ASCII that [unicode.ToLower] sends into ASCII,
    become [i] and [k].  Every other byte is kept: Go rewrites those runes
    to runes that are again outside ASCII, so the ASCII bytes of the
    result, which is all the analyzer looks at, are the ones Go
    produces. *)
Fixpoint lowerFrom (skip : nat) (s : string) : string :=
  match s with
  | EmptyString => EmptyString
  | String c rest =>
      match skip with
      | S k => lowerFrom k rest
      | O =>
          match rest with
          | String c2 (String c3 _) =>
              if ((byte c =? 226) && (byte c2 =? 132) && (byte c3 =? 170))%N
              then String "k" (lowerFrom 2 rest)
              else if ((byte c =? 196) && (byte c2 =? 176))%N
                   then String "i" (lowerFrom 1 rest)
                   else String (lowerByte c) (lowerFrom 0 rest)
          | String c2 EmptyString =>
              if ((byte c =? 196) && (byte c2 =? 176))%N
              then String "i" (lowerFrom 1 rest)
              else String (lowerByte c) (lowerFrom 0 rest)
          | EmptyString => String (lowerByte c) EmptyString
          end
      end
  end.

Definition ToLower (s : string) : string := lowerFrom 0 s.

(** [strings.Contains]. *)
Fixpoint Contains (s substr : string) : bool :=
  String.prefix substr s
  || match s with
     | EmptyString => false
     | String _ rest => Contains rest substr
     end.

(** [strings.Join]. *)
Fixpoint Join (elems : list string) (sep : string) : string :=
  match elems with
  | [] => EmptyString
  | [w] => w
  | w :: ws => w ++ sep ++ Join ws sep
  end.

End Strings.

(** ** Go integers and slices *)

(** The value a 64-bit signed [int] holds after an operation whose exact
    result is [z]. *)
Definition wrap64 (z : Z) : Z := (z + 2 ^ 63) mod 2 ^ 64 - 2 ^ 63.

(** What a Go function call produces: a value, or a run-time panic. *)
Inductive Result (A : Type) : Type :=
| Ret (a : A)
| Panic (msg : string).
Arguments Ret {A} a.
Arguments Panic {A} msg.

(** The slice expression [s[:n]].  It panics when [n] exceeds the capacity;
    the slices sliced here come from [strings.Fields], and the model takes
    their capacity to be their length. *)
Definition sliceTo {A : Type} (s : list A) (n : nat) : Result (list A) :=
  if (n <=? List.length s)%nat then Ret (firstn n s)
  else Panic "slice bounds out of range".

(** ** Go's [context] package *)

Inductive CtxErr := Canceled | DeadlineExceeded.

(** A [context.Context], as far as a program can tell contexts apart: the
    deadline, if one was set (a time in milliseconds), and the value of
    [Err()]. *)
Record Context := {
  ctxDeadline : option Z;
  ctxErr : option CtxErr
}.

Definition Background : Context := {| ctxDeadline := None; ctxErr := None |}.

(** [context.WithCancel]: the child has the parent's deadline and state. *)
Definition WithCancel (parent : Context) : Context :=
  {| ctxDeadline := ctxDeadline parent; ctxErr := ctxErr parent |}.

(** The effect on a context of calling its cancel function, or that of an
    ancestor. *)
Definition cancel (c : Context) : Context :=
  {| ctxDeadline := ctxDeadline c;
     ctxErr := match ctxErr c with None => Some Canceled | e => e end |}.

(** ** internal/analyzer *)

Module Analyzer.

Record Analysis := {
  Approved : bool;
  WordCount : Z;
  ReadTimeSeconds : Z;
  GradeLevel : Q;
  Issues : list string;
  Suggestion : string
}.

Record AppContext := {
  AppName : string;
  ChannelType : string
}.

(** A Go [error] value. *)
Definition error := string.

(** The pair of an [Analysis] pointer and an [error] that a validator
    returns; [None] is [nil]. *)
Definition Outcome : Type := option Analysis * option error.

Definition passiveIndicators : list string :=
  ["was"; "were"; "been"; "being"; "is being"; "are being"].

(** The loop over [passiveIndicators]: one issue at the first hit. *)
Definition passiveIssues (lowerText : string) : list string :=
  if existsb (fun indicator => Strings.Contains lowerText (" " ++ indicator ++ " "))
             passiveIndicators
  then ["possible passive voice detected"] else [].

(** [mockAnalysis].  [GradeLevel] is the exact quotient; Go holds its
    rounding to a [float64]. *)
Definition mockAnalysis (text : string) : Result Outcome :=
  let words := Strings.Fields text in
  let wordCount := Z.of_nat (List.length words) in
  let issues0 : list string := [] in
  let approved0 := true in
  let '(issues1, approved) :=
    if 100 <? wordCount
    then ((issues0 ++ ["message is quite long"])%list, false)
    else (issues0, approved0) in
  let lowerText := Strings.ToLower text in
  let issues := (issues1 ++ passiveIssues lowerText)%list in
  let readTime0 := Z.quot (wrap64 (wordCount * 60)) 200 in
  let readTime := if readTime0 <? 1 then 1 else readTime0 in
  let gradeLevel0 := (inject_Z wordCount / 10)%Q in
  let gradeLevel := if negb (Qle_bool gradeLevel0 12) then 12%Q else gradeLevel0 in
  let suggestion :=
    if negb approved && (100 <? wordCount)
    then match sliceTo words 50 with
         | Ret first => Ret (Strings.Join first " " ++ "...")
         | Panic msg => Panic msg
         end
    else Ret "" in
  match suggestion with
  | Panic msg => Panic msg
  | Ret suggestion =>
      Ret (Some {| Approved := approved;
                   WordCount := wordCount;
                   ReadTimeSeconds := readTime;
                   GradeLevel := gradeLevel;
                   Issues := issues;
                   Suggestion := suggestion |},
           None)
  end.

(** [Analyze].  The context and the application context are not read. *)
Definition Analyze (ctx : option Context) (text : string) (appCtx : AppContext)
  : Result Outcome :=
  if String.eqb (Strings.TrimSpace text) ""
  then Ret (Some {| Approved := true;
                    WordCount := 0;
                    ReadTimeSeconds := 0;
                    GradeLevel := 0;
                    Issues := [];
                    Suggestion := "" |},
            None)
  else mockAnalysis text.

End Analyzer.

(** ** Effects *)

Record ValidatorCall := {
  callCtx : option Context;
  callText : string;
  callAppCtx : Analyzer.AppContext
}.

(** What the program does to its surroundings:
    - a call of the validator (the handler's [hemingway.Analyze]) and its
      return;
    - a write to the focused field ([Element.SetValue]);
    - a synthetic key event ([C.postKeyEvent]);
    - the arrival of a key-down event at the tap callback, and what the
      callback hands back for it: the event itself (it goes on to the
      application) or [NULL] (it is swallowed).
    Log lines are left out. *)
Inductive Action :=
| ValidateCall (c : ValidatorCall)
| ValidateReturn (out : Analyzer.Outcome)
| WriteText (text : string)
| PostKey (keyCode : Z) (keyDown : bool)
| KeyArrives (keyCode flags : Z)
| PassKey (keyCode flags : Z)
| SwallowKey (keyCode flags : Z).

Definition Eff (A : Type) : Type := list Action * Result A.

Definition ret {A : Type} (a : A) : Eff A := ([], Ret a).

Definition emit (a : Action) : Eff unit := ([a], Ret tt).

Definition liftResult {A : Type} (r : Result A) : Eff A := ([], r).

Definition bind {A B : Type} (m : Eff A) (k : A -> Eff B) : Eff B :=
  match m with
  | (tr, Ret a) => let '(tr', r) := k a in ((tr ++ tr')%list, r)
  | (tr, Panic msg) => (tr, Panic msg)
  end.

Notation "x <- m ;; k" := (bind m (fun x => k))
  (at level 61, m at next level, right associativity).
Notation "m ;;; k" := (bind m (fun _ => k))
  (at level 61, right associativity).

Definition trace {A : Type} (m : Eff A) : list Action := fst m.
Definition result {A : Type} (m : Eff A) : Result A := snd m.

(** A validator, as the handler sees it: Go's
    [func(ctx, text, appCtx) (Analysis pointer, error)]. *)
Definition Validator : Type :=
  option Context -> string -> Analyzer.AppContext -> Result Analyzer.Outcome.

(** The call of a validator, with its call and its return in the trace. *)
Definition callValidator (validate : Validator)
  (ctx : option Context) (text : string) (appCtx : Analyzer.AppContext)
  : Eff Analyzer.Outcome :=
  emit (ValidateCall {| callCtx := ctx; callText := text; callAppCtx := appCtx |}) ;;;
  out <- liftResult (validate ctx text appCtx) ;;
  emit (ValidateReturn out) ;;;
  ret out.

(** ** pkg/apps *)

Module Apps.

Record TargetApp := {
  Name : string;
  BundleID : string;
  TextFieldRoles : list string
}.

Definition DefaultTargets : list TargetApp :=
  [ {| Name := "Messages"; BundleID := "com.apple.MobileSMS";
       TextFieldRoles := ["AXTextArea"; "AXTextField"] |};
    {| Name := "Slack"; BundleID := "com.tinyspeck.slackmacgap";
       TextFieldRoles := ["AXTextArea"; "AXTextField"] |};
    {| Name := "Discord"; BundleID := "com.hnc.Discord";
       TextFieldRoles := ["AXTextArea"; "AXTextField"] |} ].

(** A Go [map[string]bool], as the list of its entries, newest first. *)
Definition BoolMap : Type := list (string * bool).

(** [m[key]]: the zero value [false] for a missing key. *)
Fixpoint lookup (m : BoolMap) (key : string) : bool :=
  match m with
  | [] => false
  | (k, v) :: rest => if String.eqb k key then v else lookup rest key
  end.

Definition TargetBundleIDs : BoolMap :=
  fold_left (fun ids t => (BundleID t, true) :: ids) DefaultTargets [].

Definition IsTargetApp (bundleID : string) : bool :=
  lookup TargetBundleIDs bundleID.

Definition FindTarget (bundleID : string) : option TargetApp :=
  find (fun t => String.eqb (BundleID t) bundleID) DefaultTargets.

End Apps.

(** ** internal/accessibility *)

Module Accessibility.

(** An [Element], by what the Accessibility API answers for it: the owning
    application, the role, the text value, and whether a write of the
    value is accepted. *)
Record Element := {
  bundleID : string;
  role : string;
  value : string;
  writable : bool
}.

Definition IsTextField (e : Element) : bool :=
  String.eqb (role e) "AXTextField" || String.eqb (role e) "AXTextArea".

(** [lastWasTextField] is the local variable of [pollLoop]. *)
Record FocusMonitor := {
  targetBundleIDs : Apps.BoolMap;
  currentElement : option Element;
  lastWasTextField : bool;
  running : bool
}.

Definition NewFocusMonitor (targets : Apps.BoolMap) : FocusMonitor :=
  {| targetBundleIDs := targets; currentElement := None;
     lastWasTextField := false; running := false |}.

(** [Start]; [axEnabled] says whether [SystemWideElement] got the
    system-wide element.  The result is the monitor and the returned
    error; the poll loop runs when the error is [nil]. *)
Definition Start (m : FocusMonitor) (axEnabled : bool)
  : FocusMonitor * option Analyzer.error :=
  if running m then (m, None)
  else
    let m' := {| targetBundleIDs := targetBundleIDs m;
                 currentElement := currentElement m;
                 lastWasTextField := lastWasTextField m;
                 running := true |} in
    if negb axEnabled
    then (m', Some "accessibility permissions not enabled")
    else (m', None).

(** The callbacks [pollLoop] fires, in order. *)
Inductive FocusCallback :=
| OnTextFieldFocus (e : Element) (bundle : string)
| OnTextFieldBlur.

(** One tick of [pollLoop]; [focused] is [None] when [FocusedElement]
    fails and the tick is skipped. *)
Definition pollTick (m : FocusMonitor) (focused : option Element)
  : FocusMonitor * list FocusCallback :=
  match focused with
  | None => (m, [])
  | Some f =>
      let isTarget := Apps.lookup (targetBundleIDs m) (bundleID f) in
      let isTextField := IsTextField f in
      let entered := isTarget && isTextField && negb (lastWasTextField m) in
      let left := lastWasTextField m && (negb isTarget || negb isTextField) in
      let cur1 := if entered then Some f else currentElement m in
      let cur2 := if left then None else cur1 in
      ({| targetBundleIDs := targetBundleIDs m;
          currentElement := cur2;
          lastWasTextField := isTarget && isTextField;
          running := running m |},
       ((if entered then [OnTextFieldFocus f (bundleID f)] else [])
        ++ (if left then [OnTextFieldBlur] else []))%list)
  end.

(** The ticks of [pollLoop], one after the other, from the state of the
    monitor and of the loop's [lastWasTextField]: the monitor in the end
    and the callbacks fired, in order. *)
Fixpoint pollLoop (m : FocusMonitor) (ticks : list (option Element))
  : FocusMonitor * list FocusCallback :=
  match ticks with
  | [] => (m, [])
  | focused :: rest =>
      let '(m1, cbs) := pollTick m focused in
      let '(m2, cbs') := pollLoop m1 rest in
      (m2, (cbs ++ cbs')%list)
  end.

(** A monitor with its channel [stopCh], which [NewFocusMonitor] makes
    once and [Stop] closes. *)
Record Stoppable := {
  monitor : FocusMonitor;
  stopChClosed : bool
}.

(** [Start] on such a monitor; the third result says whether the poll
    loop is launched ([go m.pollLoop]). *)
Definition StartMonitor (s : Stoppable) (axEnabled : bool)
  : Stoppable * option Analyzer.error * bool :=
  let '(m, err) := Start (monitor s) axEnabled in
  ({| monitor := m; stopChClosed := stopChClosed s |}, err,
   negb (running (monitor s)) && axEnabled).

(** [Stop].  Closing a closed channel panics.  The poll loop ends, and its
    [lastWasTextField] with it. *)
Definition Stop (s : Stoppable) : Result Stoppable :=
  if negb (running (monitor s)) then Ret s
  else if stopChClosed s then Panic "close of closed channel"
  else Ret {| monitor := {| targetBundleIDs := targetBundleIDs (monitor s);
                            currentElement := None;
                            lastWasTextField := false;
                            running := false |};
              stopChClosed := true |}.

Definition CurrentElement (m : FocusMonitor) : option Element := currentElement m.

Definition CurrentText (m : FocusMonitor) : string :=
  match currentElement m with
  | None => ""
  | Some elem => value elem
  end.

(** [SetCurrentText]: the new monitor and the returned error. *)
Definition SetCurrentText (m : FocusMonitor) (text : string)
  : Eff (FocusMonitor * option Analyzer.error) :=
  match currentElement m with
  | None => ret (m, Some "element not found")
  | Some elem =>
      emit (WriteText text) ;;;
      if writable elem
      then ret ({| targetBundleIDs := targetBundleIDs m;
                   currentElement :=
                     Some {| bundleID := bundleID elem; role := role elem;
                             value := text; writable := writable elem |};
                   lastWasTextField := lastWasTextField m;
                   running := running m |}, None)
      else ret (m, Some "failed to set value")
  end.

Definition IsMonitoring (m : FocusMonitor) : bool :=
  match currentElement m with Some _ => true | None => false end.

End Accessibility.

(** ** internal/keyboard *)

Module Keyboard.

Definition KeyCodeReturn : Z := 36.
Definition KeyCodeEnter : Z := 76.

(** The [CGEventFlags] masks of the four modifiers. *)
Definition kCGEventFlagMaskShift : Z := 131072.
Definition kCGEventFlagMaskControl : Z := 262144.
Definition kCGEventFlagMaskAlternate : Z := 524288.
Definition kCGEventFlagMaskCommand : Z := 1048576.

(** A key-down [CGEvent]: its key code and its flags. *)
Record CGEvent := {
  keycode : Z;
  flags : Z
}.

Definition getKeyCode (event : CGEvent) : Z := keycode event.

Definition isShiftHeld (event : CGEvent) : Z :=
  if Z.land (flags event) kCGEventFlagMaskShift =? 0 then 0 else 1.
Definition isCommandHeld (event : CGEvent) : Z :=
  if Z.land (flags event) kCGEventFlagMaskCommand =? 0 then 0 else 1.
Definition isControlHeld (event : CGEvent) : Z :=
  if Z.land (flags event) kCGEventFlagMaskControl =? 0 then 0 else 1.
Definition isOptionHeld (event : CGEvent) : Z :=
  if Z.land (flags event) kCGEventFlagMaskAlternate =? 0 then 0 else 1.

Record Modifiers := {
  Shift : bool;
  Command : bool;
  Control : bool;
  Option : bool
}.

(** [EventCallback]: [true] allows the event, [false] swallows it. *)
Definition EventCallback : Type := Z -> Modifiers -> Eff bool.

(** [goEventCallback], with the package variable [eventCallback] as an
    argument.  [None] as a result is the [NULL] that swallows the event. *)
Definition goEventCallback (eventCallback : option EventCallback) (event : CGEvent)
  : Eff (option CGEvent) :=
  let keyCode := getKeyCode event in
  if negb (keyCode =? KeyCodeReturn) && negb (keyCode =? KeyCodeEnter)
  then ret (Some event)
  else
    let modifiers := {| Shift := isShiftHeld event =? 1;
                        Command := isCommandHeld event =? 1;
                        Control := isControlHeld event =? 1;
                        Option := isOptionHeld event =? 1 |} in
    match eventCallback with
    | Some cb =>
        allow <- cb keyCode modifiers ;;
        if negb allow then ret None else ret (Some event)
    | None => ret (Some event)
    end.







(** [PostEnterKey]. *)
Definition PostEnterKey : Eff unit :=
  emit (PostKey KeyCodeReturn true) ;;;
  emit (PostKey KeyCodeReturn false).

Section Interceptor.

(** The objects a handler closure holds references to.  The closure
    reads them as they are when it runs, so a handler takes their
    current state as an argument. *)
Variable Store : Type.

(** [InterceptHandler]: [true] allows the keystroke, [false] blocks it. *)
Definition InterceptHandler : Type := Store -> option Context -> Eff bool.

(** [Interceptor]; [started] says that [eventTap] is not [nil]. *)
Record Interceptor := {
  started : bool;
  handler : option InterceptHandler;
  monitoring : bool;
  ctx : option Context
}.

Definition NewInterceptor : Interceptor :=
  {| started := false; handler := None; monitoring := false; ctx := None |}.

Definition SetHandler (i : Interceptor) (h : InterceptHandler) : Interceptor :=
  {| started := started i; handler := Some h;
     monitoring := monitoring i; ctx := ctx i |}.

(** [Start]; [tapCreated] says whether [NewEventTap] got a tap.  The
    result is the interceptor and the returned error. *)
Definition Start (i : Interceptor) (parent : Context) (tapCreated : bool)
  : Interceptor * option Analyzer.error :=
  if started i then (i, None)
  else if negb tapCreated
       then (i, Some "input monitoring permissions not enabled")
       else ({| started := true; handler := handler i;
                monitoring := monitoring i;
                ctx := Some (WithCancel parent) |}, None).

Definition handleKeyEvent (i : Interceptor) (store : Store)
  (keyCode : Z) (modifiers : Modifiers) : Eff bool :=
  if Command modifiers || Control modifiers || Option modifiers
  then ret true
  else if Shift modifiers
  then ret true
  else
    if negb (monitoring i)
    then ret true
    else match handler i with
         | Some h => h store (ctx i)
         | None => ret true
         end.

Definition SetMonitoring (i : Interceptor) (m : bool) : Interceptor :=
  {| started := started i; handler := handler i;
     monitoring := m; ctx := ctx i |}.

Definition IsMonitoring (i : Interceptor) : bool := monitoring i.

(** [ReleaseEnter]. *)
Definition ReleaseEnter (i : Interceptor) : Eff unit := PostEnterKey.

End Interceptor.

Arguments started {Store} _.
Arguments handler {Store} _.
Arguments monitoring {Store} _.
Arguments ctx {Store} _.
Arguments SetHandler {Store} _ _.
Arguments Start {Store} _ _ _.
Arguments handleKeyEvent {Store} _ _ _ _.
Arguments SetMonitoring {Store} _ _.
Arguments IsMonitoring {Store} _.
Arguments ReleaseEnter {Store} _.

End Keyboard.

(** ** cmd/hemingway-guard: [main] *)

Module Main.

Import Accessibility Keyboard.

Inductive MenuAction :=
| MenuActionToggleEnabled
| MenuActionSettings
| MenuActionQuit.

(** The slice expression [s[:n]] of a string, by bytes. *)
Definition sliceStringTo (s : string) (n : Z) : Result string :=
  if (0 <=? n) && (n <=? Z.of_nat (String.length s))
  then Ret (substring 0 (Z.to_nat n) s)
  else Panic "slice bounds out of range".

(** [truncate]. *)
Definition truncate (s : string) (maxLen : Z) : Result string :=
  if Z.of_nat (String.length s) <=? maxLen then Ret s
  else match sliceStringTo s maxLen with
       | Ret head => Ret (head ++ "...")
       | Panic msg => Panic msg
       end.

Section Wiring.

(** The analyzer the handler calls.  [main] passes [Analyzer.Analyze]
    of the placeholder analyzer. *)
Variable validate : Validator.

(** The [AppContext] the handler builds for the focused element. *)
Definition appContextFor (elem : option Element) : Analyzer.AppContext :=
  let appCtx := {| Analyzer.AppName := ""; Analyzer.ChannelType := "" |} in
  match elem with
  | Some e =>
      match Apps.FindTarget (bundleID e) with
      | Some target =>
          {| Analyzer.AppName := Apps.Name target;
             Analyzer.ChannelType := Analyzer.ChannelType appCtx |}
      | None => appCtx
      end
  | None => appCtx
  end.

(** The closure given to [interceptor.SetHandler].  A [nil] analysis
    with a [nil] error panics where its fields are first read. *)
Definition interceptHandler : InterceptHandler FocusMonitor :=
  fun focusMonitor ctx =>
    let text := CurrentText focusMonitor in
    if String.eqb text "" then ret true
    else
      let elem := CurrentElement focusMonitor in
      let appCtx := appContextFor elem in
      out <- callValidator validate ctx text appCtx ;;
      let '(analysis, err) := out in
      match err with
      | Some _ => ret true
      | None =>
          match analysis with
          | None => ([], Panic "invalid memory address or nil pointer dereference")
          | Some analysis =>
              if Analyzer.Approved analysis then ret true
              else ret true
          end
      end.

(** The objects [main] creates, and the package variable
    [eventCallback] of [keyboard], which is either [nil] or the
    interceptor's [handleKeyEvent]. *)
Record App := {
  rootCtx : Context;
  menuEnabled : bool;
  focusMonitor : FocusMonitor;
  interceptor : Interceptor FocusMonitor;
  eventCallbackSet : bool
}.

Definition withInterceptor (a : App) (i : Interceptor FocusMonitor) : App :=
  {| rootCtx := rootCtx a; menuEnabled := menuEnabled a;
     focusMonitor := focusMonitor a; interceptor := i;
     eventCallbackSet := eventCallbackSet a |}.

(** The state [main] reaches at [C.runApp()], both permissions granted
    (it exits otherwise). *)
Definition boot : App :=
  let ctx0 := WithCancel Background in
  let fm := NewFocusMonitor Apps.TargetBundleIDs in
  let i := SetHandler (NewInterceptor FocusMonitor) interceptHandler in
  {| rootCtx := ctx0;
     menuEnabled := true;
     focusMonitor := fst (Accessibility.Start fm true);
     interceptor := fst (Keyboard.Start i ctx0 true);
     eventCallbackSet := true |}.

(** What reaches the program: a tick of the focus poll with the element
    the system reports as focused (the poll runs while the monitor is
    started and the root context is not cancelled), an edit of the
    monitored field by the user, a key-down event at the tap, a click in
    the menu. *)
Inductive Event :=
| Tick (focused : option Element)
| FieldEdited (text : string)
| KeyDown (event : CGEvent)
| MenuClick (action : MenuAction).

(** The callbacks [main] gives to the focus monitor. *)
Definition focusCallback (a : App) (cb : FocusCallback) : App :=
  match cb with
  | OnTextFieldFocus _ _ =>
      if menuEnabled a
      then withInterceptor a (SetMonitoring (interceptor a) true)
      else a
  | OnTextFieldBlur => withInterceptor a (SetMonitoring (interceptor a) false)
  end.

(** The callback [main] gives to [ui.SetMenuCallback]. *)
Definition menuCallback (a : App) (action : MenuAction) : App :=
  match action with
  | MenuActionToggleEnabled =>
      let enabled := negb (menuEnabled a) in
      let i := if enabled
               then SetMonitoring (interceptor a)
                      (Accessibility.IsMonitoring (focusMonitor a))
               else SetMonitoring (interceptor a) false in
      {| rootCtx := rootCtx a; menuEnabled := enabled;
         focusMonitor := focusMonitor a; interceptor := i;
         eventCallbackSet := eventCallbackSet a |}
  | MenuActionSettings => a
  | MenuActionQuit =>
      let i := interceptor a in
      {| rootCtx := cancel (rootCtx a); menuEnabled := menuEnabled a;
         focusMonitor := focusMonitor a;
         interceptor :=
           {| started := started i; handler := handler i;
              monitoring := monitoring i;
              ctx := option_map cancel (ctx i) |};
         eventCallbackSet := eventCallbackSet a |}
  end.

(** The tap callback as installed, and what it hands back. *)
Definition onKeyDown (a : App) (event : CGEvent) : Eff (option CGEvent) :=
  goEventCallback
    (if eventCallbackSet a
     then Some (handleKeyEvent (interceptor a) (focusMonitor a))
     else None)
    event.

Definition step (a : App) (ev : Event) : Eff App :=
  match ev with
  | Tick focused =>
      match ctxErr (rootCtx a) with
      | Some _ => ret a
      | None =>
          if negb (running (focusMonitor a)) then ret a
          else
            let '(fm, cbs) := pollTick (focusMonitor a) focused in
            ret (fold_left focusCallback cbs
                   {| rootCtx := rootCtx a; menuEnabled := menuEnabled a;
                      focusMonitor := fm; interceptor := interceptor a;
                      eventCallbackSet := eventCallbackSet a |})
      end
  | FieldEdited text =>
      match currentElement (focusMonitor a) with
      | None => ret a
      | Some e =>
          let fm := focusMonitor a in
          ret {| rootCtx := rootCtx a; menuEnabled := menuEnabled a;
                 focusMonitor :=
                   {| targetBundleIDs := targetBundleIDs fm;
                      currentElement :=
                        Some {| bundleID := bundleID e; role := role e;
                                value := text; writable := writable e |};
                      lastWasTextField := lastWasTextField fm;
                      running := running fm |};
                 interceptor := interceptor a;
                 eventCallbackSet := eventCallbackSet a |}
      end
  | KeyDown event =>
      emit (KeyArrives (keycode event) (flags event)) ;;;
      out <- onKeyDown a event ;;
      match out with
      | Some e => emit (PassKey (keycode e) (flags e))
      | None => emit (SwallowKey (keycode event) (flags event))
      end ;;;
      ret a
  | MenuClick action => ret (menuCallback a action)
  end.

(** The events are handled one after the other.  The tap callback runs on
    the run loop and returns before the next key event is delivered; a tick
    of the focus poll, which has a goroutine of its own, and a menu click
    are taken before or after a callback, not within one. *)
Fixpoint run (a : App) (evs : list Event) : Eff App :=
  match evs with
  | [] => ret a
  | ev :: rest => a' <- step a ev ;; run a' rest
  end.

End Wiring.

End Main.

(** ** Reading traces *)

Import Accessibility Keyboard Main.

Definition isWriteText (act : Action) : bool :=
  match act with WriteText _ => true | _ => false end.

Definition isPostKey (act : Action) : bool :=
  match act with PostKey _ _ => true | _ => false end.

Definition isSwallowKey (act : Action) : bool :=
  match act with SwallowKey _ _ => true | _ => false end.

(** The validator calls that have not returned at the end of [tr]. *)
Fixpoint liveValidations (tr : list Action) : Z :=
  match tr with
  | [] => 0
  | ValidateCall _ :: rest => liveValidations rest + 1
  | ValidateReturn _ :: rest => liveValidations rest - 1
  | _ :: rest => liveValidations rest
  end.

(** The key events held back at the end of [tr]: an event is held from
    its arrival at the tap until the callback hands it back or, when the
    callback swallowed it, until a key-down is posted in its place. *)
Fixpoint pendingFrom (open : Z) (tr : list Action) : Z :=
  match tr with
  | [] => open
  | KeyArrives _ _ :: rest => pendingFrom (open + 1) rest
  | PassKey _ _ :: rest => pendingFrom (Z.max 0 (open - 1)) rest
  | PostKey _ true :: rest => pendingFrom (Z.max 0 (open - 1)) rest
  | _ :: rest => pendingFrom open rest
  end.

Definition pendingIntercepts (tr : list Action) : Z := pendingFrom 0 tr.

(** No write to the field, no synthetic key, nothing swallowed. *)
Definition untouched (tr : list Action) : bool :=
  forallb (fun act => negb (isWriteText act) && negb (isPostKey act)
                      && negb (isSwallowKey act)) tr.

(** The validator calls of a trace, in order. *)
Definition validatorCalls (tr : list Action) : list ValidatorCall :=
  flat_map (fun act => match act with ValidateCall c => [c] | _ => [] end) tr.

Definition noDeadline (c : option Context) : bool :=
  match c with
  | Some x => match ctxDeadline x with None => true | Some _ => false end
  | None => true
  end.


(** The traces of a run and their prefixes: key events that arrive and are
    handed back, with at most one validator call and its return in
    between.  A trace that stops before the key is handed back is a prefix,
    or the trace of a run that ended in a panic. *)
Inductive Serial : list Action -> Prop :=
| Serial_nil : Serial []
| Serial_passed :
    forall k f k' f' tr,
      Serial tr -> Serial (KeyArrives k f :: PassKey k' f' :: tr)
| Serial_validated :
    forall k f c out k' f' tr,
      Serial tr ->
      Serial (KeyArrives k f :: ValidateCall c :: ValidateReturn out :: PassKey k' f' :: tr)
| Serial_arrived : forall k f, Serial [KeyArrives k f]
| Serial_calling : forall k f c, Serial [KeyArrives k f; ValidateCall c]
| Serial_returned :
    forall k f c out, Serial [KeyArrives k f; ValidateCall c; ValidateReturn out].

(** ** The vocabulary of the properties *)

(** The call the handler makes when the field holds text. *)
Definition handlerCall (fm : FocusMonitor) (c : option Context) : ValidatorCall :=
  {| callCtx := c;
     callText := CurrentText fm;
     callAppCtx := appContextFor (CurrentElement fm) |}.

(** What the validator answers to that call. *)
Definition handlerOutcome (validate : Validator) (fm : FocusMonitor) (c : option Context)
  : Result Analyzer.Outcome :=
  validate c (CurrentText fm) (appContextFor (CurrentElement fm)).

(** The handler installed is the program's, over [validate]. *)
Definition wired (validate : Validator) (a : App) : Prop :=
  handler (interceptor a) = Some (interceptHandler validate).

(** The interceptor's context has no deadline. *)
Definition cancelOnly (a : App) : Prop :=
  noDeadline (Keyboard.ctx (interceptor a)) = true.

(** What a step keeps: the handler installed, and a context without
    deadline in the interceptor. *)
Definition sound (validate : Validator) (a : App) : Prop :=
  wired validate a /\ cancelOnly a.


(** The key is Return or Enter. *)
Definition isTrigger (event : CGEvent) : bool :=
  (keycode event =? KeyCodeReturn) || (keycode event =? KeyCodeEnter).

(** One of Shift, Command, Control and Option is held. *)
Definition modified (event : CGEvent) : bool :=
  (isShiftHeld event =? 1) || (isCommandHeld event =? 1)
  || (isControlHeld event =? 1) || (isOptionHeld event =? 1).

(** The modifiers [goEventCallback] reads off an event. *)
Definition modifiersOf (event : CGEvent) : Modifiers :=
  {| Shift := isShiftHeld event =? 1; Command := isCommandHeld event =? 1;
     Control := isControlHeld event =? 1; Option := isOptionHeld event =? 1 |}.

(** The tap callback reaches the handler. *)
Definition reachesHandler (a : App) (event : CGEvent) : bool :=
  isTrigger event && negb (modified event)
  && eventCallbackSet a && monitoring (interceptor a).

(** [n] calls of [ReleaseEnter] in a row. *)
Fixpoint releaseTimes {Store : Type} (i : Interceptor Store) (n : nat) : Eff unit :=
  match n with
  | O => ret tt
  | S k => ReleaseEnter i ;;; releaseTimes i k
  end.

(** *** Scenarios *)

Definition slackField (text : string) : Element :=
  {| bundleID := "com.tinyspeck.slackmacgap"; role := "AXTextArea";
     value := text; writable := true |}.

Definition returnKey : CGEvent := {| keycode := KeyCodeReturn; flags := 0 |}.

Definition shiftReturnKey : CGEvent :=
  {| keycode := KeyCodeReturn; flags := kCGEventFlagMaskShift |}.

Definition stateAfter (a : App) (evs : list Event) : App :=
  match result (run a evs) with
  | Ret a' => a'
  | Panic _ => a
  end.

(** The program with the focus on a Slack text area that holds [text]. *)
Definition typing (validate : Validator) (text : string) : App :=
  stateAfter (boot validate) [Tick (Some (slackField "")); FieldEdited text].

(** A validator that fails every call. *)
Definition failingValidator : Validator :=
  fun _ _ _ => Ret (None, Some "context deadline exceeded").


(** [n] times the word [w], each followed by a space. *)
Fixpoint wordsOf (w : string) (n : nat) : string :=
  match n with
  | O => ""
  | S k => w ++ " " ++ wordsOf w k
  end.

(** A message of 101 words. *)
Definition longMessage : string := wordsOf "word" 101.

Definition noContext : Analyzer.AppContext :=
  {| Analyzer.AppName := ""; Analyzer.ChannelType := "" |}.

Definition slackContext : Analyzer.AppContext :=
  {| Analyzer.AppName := "Slack"; Analyzer.ChannelType := "" |}.

(** The context the interceptor holds after [Start]: a child of the child
    of [Background] that [main] makes. *)
Definition liveContext : Context := WithCancel (WithCancel Background).

(** *** Words, callbacks, taps and keys *)

(** A byte below 128. *)
Definition ascii7 (c : ascii) : bool := (Strings.byte c <? 128)%N.

(** [t] is empty or starts with a byte below 128. *)
Definition asciiLed (t : string) : bool :=
  match t with EmptyString => true | String c _ => ascii7 c end.

(** No white-space rune starts at a byte of [cur] when [s] follows it. *)
Fixpoint openWord (cur s : string) : Prop :=
  match cur with
  | EmptyString => True
  | String _ r => Strings.spaceWidth (cur ++ s) = 0%nat /\ openWord r s
  end.

(** A word without white space in it. *)
Definition tight (w : string) : Prop := openWord w "".

(** The last word of a list with [tail] added to it. *)
Fixpoint addToLast (ws : list string) (tail : string) : list string :=
  match ws with
  | [] => []
  | [w] => [w ++ tail]
  | w :: rest => w :: addToLast rest tail
  end.

(** The indicators that decide the passive-voice check. *)
Definition decisiveIndicators : list string := ["was"; "were"; "been"; "being"].


(** The current element, when there is one, is a text field of a target
    application, and the monitor looks for the program's targets. *)
Definition focused (a : App) : Prop :=
  targetBundleIDs (focusMonitor a) = Apps.TargetBundleIDs
  /\ forall e, currentElement (focusMonitor a) = Some e ->
               Apps.IsTargetApp (bundleID e) = true.

(** The key events handed back, by key code and flags, in order. *)
Definition passedKeys (tr : list Action) : list (Z * Z) :=
  flat_map (fun act => match act with PassKey k f => [(k, f)] | _ => [] end) tr.

(** The key-down events of an event sequence, in order. *)
Definition keyDowns (evs : list Event) : list (Z * Z) :=
  flat_map (fun ev => match ev with
                      | KeyDown e => [(keycode e, flags e)]
                      | _ => []
                      end) evs.

(** Focus and blur take turns: a focus only outside a text field, a blur
    only inside one. *)
Fixpoint takesTurns (inField : bool) (cbs : list FocusCallback) : bool :=
  match cbs with
  | [] => true
  | OnTextFieldFocus _ _ :: rest => negb inField && takesTurns true rest
  | OnTextFieldBlur :: rest => inField && takesTurns false rest
  end.

(** The state of the loop after the callbacks [cbs]. *)
Definition inFieldAfter (inField : bool) (cbs : list FocusCallback) : bool :=
  fold_left (fun _ cb => match cb with
                         | OnTextFieldFocus _ _ => true
                         | OnTextFieldBlur => false
                         end) cbs inField.

(** A focus callback is given a text field of one of the targets, and its
    bundle identifier. *)
Definition focusOnTarget (targets : Apps.BoolMap) (cb : FocusCallback) : bool :=
  match cb with
  | OnTextFieldFocus e bundle =>
      Apps.lookup targets (bundleID e) && IsTextField e && String.eqb bundle (bundleID e)
  | OnTextFieldBlur => true
  end.





(** What [truncate] gives for a length that is not negative. *)
Definition truncated (s : string) (maxLen : Z) : string :=
  if Z.of_nat (String.length s) <=? maxLen then s
  else substring 0 (Z.to_nat maxLen) s ++ "...".

(** * Properties *)

#[local] Hint Constructors Serial : core.

(** ** The handler and the tap callback, case by case *)

Section Decision.

Variable validate : Validator.

Lemma interceptHandler_empty :
  forall fm c,
    CurrentText fm = "" -> interceptHandler validate fm c = ([], Ret true).
Proof.
  intros fm c H. unfold interceptHandler. rewrite H. reflexivity.
Qed.

Lemma interceptHandler_text :
  forall fm c,
    CurrentText fm <> "" ->
    interceptHandler validate fm c =
    match handlerOutcome validate fm c with
    | Panic msg => ([ValidateCall (handlerCall fm c)], Panic msg)
    | Ret (None, None) =>
        ([ValidateCall (handlerCall fm c); ValidateReturn (None, None)],
         Panic "invalid memory address or nil pointer dereference")
    | Ret out =>
        ([ValidateCall (handlerCall fm c); ValidateReturn out], Ret true)
    end.
Proof.
  intros fm c H. unfold interceptHandler, handlerOutcome, handlerCall.
  apply String.eqb_neq in H. rewrite H.
  unfold callValidator, liftResult, emit, bind, ret.
  destruct (validate c (CurrentText fm) (appContextFor (CurrentElement fm)))
    as [[[an|] [e|]]|msg]; simpl; try reflexivity.
  destruct (Analyzer.Approved an); reflexivity.
Qed.

(** Splits on whether the monitored field is empty and rewrites the handler
    accordingly. *)
Ltac by_text fm c :=
  let E := fresh "E" in
  destruct (String.eqb_spec (CurrentText fm) "") as [E|E];
  [ rewrite (interceptHandler_empty fm c E)
  | rewrite (interceptHandler_text fm c E) ].

(** The handler returns [true] or panics; it never returns [false]. *)
Lemma interceptHandler_result :
  forall fm c,
    result (interceptHandler validate fm c) = Ret true
    \/ exists msg, result (interceptHandler validate fm c) = Panic msg.
Proof.
  intros fm c. by_text fm c; [left; reflexivity|].
  destruct (handlerOutcome validate fm c) as [[[an|] [e|]]|msg]; simpl; eauto.
Qed.

Lemma interceptHandler_untouched :
  forall fm c, untouched (trace (interceptHandler validate fm c)) = true.
Proof.
  intros fm c. by_text fm c; [reflexivity|].
  destruct (handlerOutcome validate fm c) as [[[an|] [e|]]|msg]; reflexivity.
Qed.

(** On a validator error the handler answers [true]. *)
Lemma interceptHandler_error :
  forall fm c analysis err,
    handlerOutcome validate fm c = Ret (analysis, Some err) ->
    result (interceptHandler validate fm c) = Ret true.
Proof.
  intros fm c analysis err H. by_text fm c; [reflexivity|].
  rewrite H. destruct analysis; reflexivity.
Qed.

Lemma interceptHandler_calls :
  forall fm c,
    validatorCalls (trace (interceptHandler validate fm c))
    = if String.eqb (CurrentText fm) "" then [] else [handlerCall fm c].
Proof.
  intros fm c. by_text fm c; [reflexivity|].
  destruct (handlerOutcome validate fm c) as [[[an|] [e|]]|msg]; reflexivity.
Qed.

Lemma onKeyDown_cases :
  forall a event,
    wired validate a ->
    onKeyDown a event =
    if reachesHandler a event
    then allow <- interceptHandler validate (focusMonitor a) (Keyboard.ctx (interceptor a)) ;;
         if negb allow then ret None else ret (Some event)
    else ret (Some event).
Proof.
  intros a event W. unfold onKeyDown, goEventCallback, reachesHandler, isTrigger,
    modified, getKeyCode.
  destruct (keycode event =? KeyCodeReturn) eqn:K1;
    destruct (keycode event =? KeyCodeEnter) eqn:K2; simpl; try reflexivity;
    (destruct (eventCallbackSet a); simpl;
     [ | rewrite andb_false_r; reflexivity ]);
    unfold handleKeyEvent; simpl; rewrite W;
    destruct (isShiftHeld event =? 1), (isCommandHeld event =? 1),
      (isControlHeld event =? 1), (isOptionHeld event =? 1); simpl;
      try reflexivity;
    destruct (monitoring (interceptor a)); reflexivity.
Qed.

(** The trace of the callback is the handler's, when it reaches it. *)
Lemma onKeyDown_trace :
  forall a event,
    wired validate a ->
    trace (onKeyDown a event) =
    if reachesHandler a event
    then trace (interceptHandler validate (focusMonitor a) (Keyboard.ctx (interceptor a)))
    else [].
Proof.
  intros a event W. rewrite (onKeyDown_cases _ _ W).
  destruct (reachesHandler a event); [ | reflexivity ].
  destruct (interceptHandler_result (focusMonitor a) (Keyboard.ctx (interceptor a)))
    as [R|[msg R]];
    destruct (interceptHandler validate (focusMonitor a) (Keyboard.ctx (interceptor a)))
      as [tr r]; simpl in *; subst r; simpl; rewrite ?app_nil_r; reflexivity.
Qed.

Lemma onKeyDown_untouched :
  forall a event,
    wired validate a -> untouched (trace (onKeyDown a event)) = true.
Proof.
  intros a event W. rewrite (onKeyDown_trace _ _ W).
  destruct (reachesHandler a event); [ apply interceptHandler_untouched | reflexivity ].
Qed.

(** When the handler answers [true], the callback hands the event back. *)
Lemma onKeyDown_released :
  forall a event,
    wired validate a ->
    result (interceptHandler validate (focusMonitor a) (Keyboard.ctx (interceptor a)))
    = Ret true ->
    result (onKeyDown a event) = Ret (Some event).
Proof.
  intros a event W H. rewrite (onKeyDown_cases _ _ W).
  destruct (reachesHandler a event); [ | reflexivity ].
  destruct (interceptHandler validate (focusMonitor a) (Keyboard.ctx (interceptor a)))
    as [tr r]. simpl in H. subst r. reflexivity.
Qed.

Lemma step_KeyDown_passes :
  forall a event,
    result (onKeyDown a event) = Ret (Some event) ->
    step a (KeyDown event)
    = (KeyArrives (keycode event) (flags event)
         :: (trace (onKeyDown a event) ++ [PassKey (keycode event) (flags event)])%list,
       Ret a).
Proof.
  intros a event R. unfold step.
  destruct (onKeyDown a event) as [tr r]. simpl in R. subst r. reflexivity.
Qed.

End Decision.

(** ** Fail-open *)

(** C1.  Fail-open: when the validator returns an error on the call the
    handler makes, the handler returns [true], the tap callback hands the
    key event back unchanged (it is not swallowed), nothing is written to
    the field and no key is posted, and the state of the program is as it
    was. *)
Theorem fail_open_on_validator_error :
  forall (validate : Validator) (a : App) (event : CGEvent)
         (analysis : option Analyzer.Analysis) (err : Analyzer.error),
    wired validate a ->
    handlerOutcome validate (focusMonitor a) (Keyboard.ctx (interceptor a))
    = Ret (analysis, Some err) ->
    result (interceptHandler validate (focusMonitor a) (Keyboard.ctx (interceptor a)))
    = Ret true
    /\ result (onKeyDown a event) = Ret (Some event)
    /\ untouched (trace (onKeyDown a event)) = true
    /\ step a (KeyDown event)
       = (KeyArrives (keycode event) (flags event)
            :: (trace (onKeyDown a event) ++ [PassKey (keycode event) (flags event)])%list,
          Ret a).
Proof.
  intros validate a event analysis err W E.
  pose proof (interceptHandler_error validate _ _ _ _ E) as H.
  pose proof (onKeyDown_released validate a event W H) as R.
  repeat split; try assumption.
  - apply (onKeyDown_untouched validate); exact W.
  - apply step_KeyDown_passes; exact R.
Qed.

Lemma fail_open_on_validator_error_witness :
  result (interceptHandler failingValidator
            (focusMonitor (typing failingValidator "hello"))
            (Keyboard.ctx (interceptor (typing failingValidator "hello"))))
  = Ret true
  /\ result (onKeyDown (typing failingValidator "hello") returnKey) = Ret (Some returnKey)
  /\ untouched (trace (onKeyDown (typing failingValidator "hello") returnKey)) = true
  /\ step (typing failingValidator "hello") (KeyDown returnKey)
     = (KeyArrives (keycode returnKey) (flags returnKey)
          :: (trace (onKeyDown (typing failingValidator "hello") returnKey)
              ++ [PassKey (keycode returnKey) (flags returnKey)])%list,
        Ret (typing failingValidator "hello")).
Proof.
  apply (fail_open_on_validator_error failingValidator
           (typing failingValidator "hello") returnKey None
           "context deadline exceeded").
  - reflexivity.
  - reflexivity.
Defined.

(** In that scenario the failing call is made, and the key goes on. *)
Example failing_call_is_made :
  trace (step (typing failingValidator "hello") (KeyDown returnKey))
  = [KeyArrives 36 0;
     ValidateCall {| callCtx := Some liveContext; callText := "hello";
                     callAppCtx := slackContext |};
     ValidateReturn (None, Some "context deadline exceeded");
     PassKey 36 0].
Proof. reflexivity. Qed.

(** ** Modifiers *)

Lemma handleKeyEvent_modified :
  forall (Store : Type) (i : Interceptor Store) (store : Store)
         (keyCode : Z) (modifiers : Modifiers),
    Shift modifiers || Command modifiers || Control modifiers || Option modifiers = true ->
    handleKeyEvent i store keyCode modifiers = ([], Ret true).
Proof.
  intros Store i store keyCode [s c k o] H. unfold handleKeyEvent. simpl in *.
  destruct s, c, k, o; simpl in *; try reflexivity; discriminate.
Qed.

(** C6.  A key event that carries Shift, Command, Control or Option is
    never swallowed, whatever its key code and whatever the state of the
    interceptor: [handleKeyEvent] answers [true] without running the
    handler, and the tap callback hands the event back. *)
Theorem modified_key_never_swallowed :
  forall (Store : Type) (i : Interceptor Store) (store : Store)
         (event : CGEvent) (installed : bool),
    modified event = true ->
    handleKeyEvent i store (keycode event) (modifiersOf event) = ([], Ret true)
    /\ goEventCallback
         (if installed then Some (handleKeyEvent i store) else None) event
       = ([], Ret (Some event)).
Proof.
  intros Store i store event installed M.
  assert (H : handleKeyEvent i store (keycode event) (modifiersOf event) = ([], Ret true)).
  { apply handleKeyEvent_modified. exact M. }
  split; [exact H|].
  unfold goEventCallback, getKeyCode.
  destruct (negb (keycode event =? KeyCodeReturn) && negb (keycode event =? KeyCodeEnter));
    [reflexivity|].
  destruct installed; [ | reflexivity ].
  unfold modifiersOf in H. rewrite H. reflexivity.
Qed.

Lemma modified_key_never_swallowed_witness :
  handleKeyEvent (interceptor (typing Analyzer.Analyze "hello"))
    (focusMonitor (typing Analyzer.Analyze "hello")) (keycode shiftReturnKey)
    (modifiersOf shiftReturnKey)
  = ([], Ret true)
  /\ goEventCallback
       (if true
        then Some (handleKeyEvent (interceptor (typing Analyzer.Analyze "hello"))
                     (focusMonitor (typing Analyzer.Analyze "hello")))
        else None) shiftReturnKey
     = ([], Ret (Some shiftReturnKey)).
Proof.
  apply (modified_key_never_swallowed FocusMonitor
           (interceptor (typing Analyzer.Analyze "hello"))
           (focusMonitor (typing Analyzer.Analyze "hello")) shiftReturnKey true).
  reflexivity.
Defined.

(** The same key without Shift, in the same state, reaches the validator. *)
Example plain_key_reaches_the_handler :
  reachesHandler (typing Analyzer.Analyze "hello") returnKey = true
  /\ reachesHandler (typing Analyzer.Analyze "hello") shiftReturnKey = false.
Proof. split; reflexivity. Qed.

(** ** One validation at a time *)





Lemma pendingFrom_app :
  forall tr tr' open,
    pendingFrom open (tr ++ tr') = pendingFrom (pendingFrom open tr) tr'.
Proof.
  induction tr as [|act tr IH]; intros tr' open; [reflexivity|].
  destruct act as [| | |k [|]| | |]; simpl; apply IH.
Qed.

Section Runs.

Variable validate : Validator.

Lemma boot_sound : sound validate (boot validate).
Proof. split; reflexivity. Qed.

Lemma focusCallback_sound :
  forall cbs a, sound validate a -> sound validate (fold_left focusCallback cbs a).
Proof.
  induction cbs as [|cb cbs IH]; intros a W; simpl; [exact W|].
  apply IH. destruct cb; simpl; [destruct (menuEnabled a)|]; exact W.
Qed.

Lemma step_sound :
  forall a ev a',
    sound validate a -> result (step a ev) = Ret a' -> sound validate a'.
Proof.
  intros a ev a' W R. destruct ev as [focused|text|event|action]; simpl in R.
  - destruct (ctxErr (rootCtx a)); [ inversion R; subst; exact W | ].
    destruct (negb (running (focusMonitor a))); [ inversion R; subst; exact W | ].
    destruct (pollTick (focusMonitor a) focused) as [fm cbs].
    inversion R; subst. apply focusCallback_sound. exact W.
  - destruct (currentElement (focusMonitor a));
      inversion R; subst; exact W.
  - destruct (onKeyDown a event) as [tr [[e|]|msg]]; simpl in R;
      inversion R; subst; exact W.
  - inversion R; subst.
    destruct action; simpl; try exact W.
    + destruct (negb (menuEnabled a)); exact W.
    + destruct W as [W C]. split; [exact W|].
      unfold cancelOnly in *. simpl.
      destruct (Keyboard.ctx (interceptor a)) as [x|]; [exact C | reflexivity].
Qed.

(** The trace of one step, by the way the step ends. *)
Lemma step_serial :
  forall a ev,
    wired validate a ->
    let call := handlerCall (focusMonitor a) (Keyboard.ctx (interceptor a)) in
    match result (step a ev) with
    | Ret _ =>
        trace (step a ev) = []
        \/ (exists k f, trace (step a ev) = [KeyArrives k f; PassKey k f])
        \/ (exists k f out,
               trace (step a ev)
               = [KeyArrives k f; ValidateCall call; ValidateReturn out; PassKey k f])
    | Panic _ =>
        (exists k f, trace (step a ev) = [KeyArrives k f; ValidateCall call])
        \/ (exists k f out,
               trace (step a ev) = [KeyArrives k f; ValidateCall call; ValidateReturn out])
    end.
Proof.
  intros a ev W call. subst call. destruct ev as [focused|text|event|action].
  - simpl. destruct (ctxErr (rootCtx a)); [left; reflexivity|].
    destruct (negb (running (focusMonitor a))); [left; reflexivity|].
    destruct (pollTick (focusMonitor a) focused). left; reflexivity.
  - simpl. destruct (currentElement (focusMonitor a)); left; reflexivity.
  - unfold step. rewrite (onKeyDown_cases validate a event W).
    destruct (reachesHandler a event); [ | simpl; right; left; eauto ].
    destruct (String.eqb_spec (CurrentText (focusMonitor a)) "") as [T|T].
    + rewrite (interceptHandler_empty _ _ _ T). simpl. right; left; eauto.
    + rewrite (interceptHandler_text _ _ _ T).
      destruct (handlerOutcome validate (focusMonitor a) (Keyboard.ctx (interceptor a)))
        as [[[an|] [e|]]|msg]; simpl; eauto 10.
  - simpl. left; reflexivity.
Qed.

Lemma run_serial :
  forall evs a, sound validate a -> Serial (trace (run a evs)).
Proof.
  induction evs as [|ev evs IH]; intros a W; simpl; [constructor|].
  pose proof (step_serial a ev (proj1 W)) as S.
  pose proof (step_sound a ev) as P.
  destruct (step a ev) as [tr [a'|msg]]; simpl in *.
  - specialize (IH a' (P a' W eq_refl)).
    destruct (run a' evs) as [tr' r']. simpl in *.
    destruct S as [E|[(k & f & E)|(k & f & out & E)]]; subst tr; simpl; auto.
  - destruct S as [(k & f & E)|(k & f & out & E)]; subst tr; auto.
Qed.



End Runs.


(** Both bounds are reached: while the validator runs for the first Return
    key, one call is in flight and one key is held; the second Return key
    is validated after the first has been handed back. *)
Example one_in_flight_is_reached :
  let tr := trace (run (boot Analyzer.Analyze)
                     [Tick (Some (slackField "")); FieldEdited "hello";
                      KeyDown returnKey; KeyDown returnKey]) in
  liveValidations (firstn 2 tr) = 1
  /\ pendingIntercepts (firstn 2 tr) = 1
  /\ liveValidations (firstn 4 tr) = 0
  /\ pendingIntercepts (firstn 4 tr) = 0
  /\ List.length (validatorCalls tr) = 2%nat.
Proof. vm_compute. repeat split. Qed.

(** ** Monitoring follows the focus *)




(** ** The analyzer *)

Lemma append_dots_not_empty : forall s, s ++ "..." <> "".
Proof. intros [|c s]; discriminate. Qed.

(** [mockAnalysis] returns, without a panic: the slice [words[:50]] is
    taken only of more than 100 words. *)
Lemma mockAnalysis_returns :
  forall text,
    exists an,
      Analyzer.mockAnalysis text = Ret (Some an, None)
      /\ Analyzer.WordCount an = Z.of_nat (List.length (Strings.Fields text))
      /\ Analyzer.Approved an = (Analyzer.WordCount an <=? 100)
      /\ Analyzer.Suggestion an
         = (if Analyzer.Approved an then ""
            else Strings.Join (firstn 50 (Strings.Fields text)) " " ++ "...")
      /\ Analyzer.Issues an
         = ((if Analyzer.Approved an then [] else ["message is quite long"])
            ++ Analyzer.passiveIssues (Strings.ToLower text))%list.
Proof.
  intros text. unfold Analyzer.mockAnalysis.
  set (words := Strings.Fields text).
  destruct (100 <? Z.of_nat (List.length words)) eqn:L.
  - assert (S50 : sliceTo words 50 = Ret (firstn 50 words)).
    { unfold sliceTo. apply Z.ltb_lt in L.
      destruct (Nat.leb_spec 50 (List.length words)) as [_|B]; [reflexivity|lia]. }
    simpl. rewrite S50. eexists. split; [reflexivity|]. simpl.
    apply Z.ltb_lt in L.
    destruct (Z.leb_spec (Z.of_nat (List.length words)) 100); [lia|].
    repeat split.
  - simpl. eexists. split; [reflexivity|]. simpl.
    apply Z.ltb_ge in L.
    destruct (Z.leb_spec (Z.of_nat (List.length words)) 100); [|lia].
    repeat split.
Qed.

(** [Analyze] returns an analysis and a [nil] error for every text. *)
Lemma Analyze_returns :
  forall c text appCtx,
    exists an, Analyzer.Analyze c text appCtx = Ret (Some an, None).
Proof.
  intros c text appCtx. unfold Analyzer.Analyze.
  destruct (String.eqb (Strings.TrimSpace text) ""); [eexists; reflexivity|].
  destruct (mockAnalysis_returns text) as (an & E & _). eauto.
Qed.

(** With the program's analyzer the handler answers [true] for every
    text. *)
Lemma interceptHandler_Analyze :
  forall fm c, result (interceptHandler Analyzer.Analyze fm c) = Ret true.
Proof.
  intros fm c.
  destruct (String.eqb_spec (CurrentText fm) "") as [E|E].
  - rewrite (interceptHandler_empty _ _ _ E). reflexivity.
  - rewrite (interceptHandler_text _ _ _ E). unfold handlerOutcome.
    destruct (Analyze_returns c (CurrentText fm) (appContextFor (CurrentElement fm)))
      as [an R].
    rewrite R. reflexivity.
Qed.

(** *** Blank text and the word count *)

Lemma fieldsFrom_cur :
  forall s k cur, cur <> "" -> Strings.fieldsFrom k cur s <> [].
Proof.
  induction s as [|c rest IH]; intros k cur H.
  - destruct cur; [contradiction|discriminate].
  - destruct k as [|k]; cbn [Strings.fieldsFrom]; [ | apply IH; exact H ].
    destruct (Strings.spaceWidth (String c rest)).
    + apply IH. destruct cur; discriminate.
    + destruct cur; [contradiction|discriminate].
Qed.

(** Left-trimming leaves nothing exactly when there is no field. *)
Lemma trimLeftFrom_blank :
  forall s k, Strings.trimLeftFrom k s = "" <-> Strings.fieldsFrom k "" s = [].
Proof.
  induction s as [|c rest IH]; intros k; [split; reflexivity|].
  destruct k as [|k]; cbn [Strings.fieldsFrom Strings.trimLeftFrom]; [ | apply IH ].
  destruct (Strings.spaceWidth (String c rest)) eqn:W.
  - split; [discriminate|]. intros H. exfalso.
    apply (fieldsFrom_cur rest 0%nat (String c "")); [discriminate|exact H].
  - apply IH.
Qed.

Lemma trimLeftFrom_head :
  forall s k,
    Strings.trimLeftFrom k s = ""
    \/ Strings.spaceWidth (Strings.trimLeftFrom k s) = 0%nat.
Proof.
  induction s as [|c rest IH]; intros k; [left; reflexivity|].
  destruct k as [|k]; cbn [Strings.trimLeftFrom]; [ | apply IH ].
  destruct (Strings.spaceWidth (String c rest)) eqn:W; [right; exact W | apply IH].
Qed.

Lemma trimLeft_idempotent :
  forall s, Strings.trimLeft (Strings.trimLeft s) = Strings.trimLeft s.
Proof.
  intros s. unfold Strings.trimLeft.
  destruct (trimLeftFrom_head s 0) as [E|E]; [rewrite E; reflexivity|].
  destruct (Strings.trimLeftFrom 0 s) as [|c rest]; [reflexivity|].
  unfold Strings.trimLeftFrom at 1. rewrite E. reflexivity.
Qed.

(** A text trims to nothing exactly when it has no field. *)
Lemma TrimSpace_blank :
  forall s, Strings.TrimSpace s = "" <-> Strings.Fields s = [].
Proof.
  intros s. unfold Strings.TrimSpace, Strings.Fields.
  rewrite <- trimLeftFrom_blank. fold (Strings.trimLeft s).
  split.
  - intros H. destruct (Strings.trimLeft s) as [|c rest] eqn:T; [reflexivity|].
    simpl in H. rewrite <- T in H. rewrite trimLeft_idempotent, T in H.
    simpl in H. discriminate.
  - intros H. rewrite H. reflexivity.
Qed.

(** X1.  For every text, blank or not, [Analyze] returns a [nil] error and
    an analysis whose word count is the number of white-space separated
    fields of the text; the count is zero exactly for the texts that trim
    to nothing. *)
Theorem word_count_is_the_number_of_fields :
  forall (c : option Context) (text : string) (appCtx : Analyzer.AppContext),
    exists an,
      Analyzer.Analyze c text appCtx = Ret (Some an, None)
      /\ Analyzer.WordCount an = Z.of_nat (List.length (Strings.Fields text))
      /\ (Analyzer.WordCount an = 0 <-> Strings.TrimSpace text = "").
Proof.
  intros c text appCtx. unfold Analyzer.Analyze.
  destruct (String.eqb_spec (Strings.TrimSpace text) "") as [B|B].
  - eexists. split; [reflexivity|]. simpl.
    rewrite (proj1 (TrimSpace_blank text) B). repeat split; auto.
  - destruct (mockAnalysis_returns text) as (an & E & W & _).
    exists an. split; [exact E|]. split; [exact W|].
    rewrite W. split; [|contradiction].
    intros Z0. apply TrimSpace_blank.
    destruct (Strings.Fields text); [reflexivity|]. simpl in Z0. lia.
Qed.

(** C10.  For a text that is not empty once trimmed, [Analyze] returns a
    [nil] error and an analysis that is approved exactly when the text has
    at most 100 white-space separated words; the suggestion is non-empty
    exactly when the analysis is not approved, and is then the first 50
    words joined by single spaces and followed by three dots. *)
Theorem analyze_characterised :
  forall (c : option Context) (text : string) (appCtx : Analyzer.AppContext),
    Strings.TrimSpace text <> "" ->
    exists an,
      Analyzer.Analyze c text appCtx = Ret (Some an, None)
      /\ Analyzer.Approved an
         = (Z.of_nat (List.length (Strings.Fields text)) <=? 100)
      /\ (Analyzer.Suggestion an <> "" <-> Analyzer.Approved an = false)
      /\ (Analyzer.Approved an = false ->
          Analyzer.Suggestion an
          = Strings.Join (firstn 50 (Strings.Fields text)) " " ++ "...").
Proof.
  intros c text appCtx T. unfold Analyzer.Analyze.
  apply String.eqb_neq in T. rewrite T.
  destruct (mockAnalysis_returns text) as (an & E & W & A & S & _).
  exists an. split; [exact E|]. split; [rewrite A, W; reflexivity|].
  rewrite S. destruct (Analyzer.Approved an).
  - split; [split|]; [ intros H; contradiction H; reflexivity | discriminate | discriminate ].
  - split; [split|]; [ reflexivity | intros _; apply append_dots_not_empty | reflexivity ].
Qed.

Lemma analyze_characterised_witness :
  exists an,
    Analyzer.Analyze None longMessage noContext = Ret (Some an, None)
    /\ Analyzer.Approved an
       = (Z.of_nat (List.length (Strings.Fields longMessage)) <=? 100)
    /\ (Analyzer.Suggestion an <> "" <-> Analyzer.Approved an = false)
    /\ (Analyzer.Approved an = false ->
        Analyzer.Suggestion an
        = Strings.Join (firstn 50 (Strings.Fields longMessage)) " " ++ "...").
Proof.
  apply (analyze_characterised None longMessage noContext).
  vm_compute. discriminate.
Defined.

(** The threshold: 100 words are approved, 101 are not. *)
Example analyze_at_the_threshold :
  option_map Analyzer.Approved
    (match Analyzer.Analyze None (wordsOf "word" 100) noContext with
     | Ret (an, _) => an | Panic _ => None end) = Some true
  /\ option_map Analyzer.Approved
       (match Analyzer.Analyze None (wordsOf "word" 101) noContext with
        | Ret (an, _) => an | Panic _ => None end) = Some false.
Proof. vm_compute. split; reflexivity. Qed.

(** An approved analysis never holds the length issue: its issues are those
    of the passive-voice check alone. *)
Lemma approved_issues :
  forall text an,
    Analyzer.mockAnalysis text = Ret (Some an, None) ->
    Analyzer.Approved an = true ->
    Analyzer.Issues an = Analyzer.passiveIssues (Strings.ToLower text).
Proof.
  intros text an E A.
  destruct (mockAnalysis_returns text) as (an' & E' & _ & _ & _ & I).
  rewrite E in E'. inversion E'; subst an'. rewrite I, A. reflexivity.
Qed.


(** C4, at the input where the code departs from it: the analysis of a
    message of 101 words is not approved and carries a suggestion, and the
    tap callback hands the Return key back all the same: the step is the
    arrival of the key, the validator call, its return and the key passed
    on, with nothing swallowed and no decision awaited. *)
Theorem flagged_message_is_let_through :
  let app := typing Analyzer.Analyze longMessage in
  match handlerOutcome Analyzer.Analyze (focusMonitor app) (Keyboard.ctx (interceptor app)) with
  | Ret (Some an, None) =>
      Analyzer.Approved an = false
      /\ Analyzer.Issues an = ["message is quite long"]
      /\ Analyzer.Suggestion an = Strings.Join (repeat "word" 50) " " ++ "..."
      /\ result (interceptHandler Analyzer.Analyze (focusMonitor app)
                   (Keyboard.ctx (interceptor app))) = Ret true
      /\ result (onKeyDown app returnKey) = Ret (Some returnKey)
      /\ trace (step app (KeyDown returnKey))
         = [KeyArrives 36 0;
            ValidateCall {| callCtx := Some liveContext; callText := longMessage;
                            callAppCtx := slackContext |};
            ValidateReturn (Some an, None);
            PassKey 36 0]
  | _ => False
  end.
Proof. vm_compute. repeat split. Qed.

(** ** Where the validator runs *)

(** The claim C3 as stated fails: for the Return key in a monitored field
    that holds [hello], the validator is called inside the tap callback. *)
Lemma callback_runs_the_validator :
  validatorCalls (trace (onKeyDown (typing Analyzer.Analyze "hello") returnKey))
  = [ {| callCtx := Some liveContext; callText := "hello";
         callAppCtx := slackContext |} ].
Proof. vm_compute. reflexivity. Qed.

(** C3, amended.  The tap callback runs the handler in line.  For a Return
    or Enter key-down with no modifier, with the callback installed,
    monitoring on and a non-empty text in the field, the callback calls the
    validator and goes on only once the validator has returned; for every
    other key-down event it does not call the validator. *)
Theorem callback_validates_in_line :
  forall (validate : Validator) (a : App) (event : CGEvent),
    wired validate a ->
    trace (onKeyDown a event)
    = if reachesHandler a event && negb (String.eqb (CurrentText (focusMonitor a)) "")
      then ValidateCall {| callCtx := Keyboard.ctx (interceptor a);
                           callText := CurrentText (focusMonitor a);
                           callAppCtx := appContextFor (CurrentElement (focusMonitor a)) |}
             :: match handlerOutcome validate (focusMonitor a) (Keyboard.ctx (interceptor a)) with
                | Ret out => [ValidateReturn out]
                | Panic _ => []
                end
      else [].
Proof.
  intros validate a event W.
  rewrite (onKeyDown_trace validate a event W).
  destruct (reachesHandler a event); [ | reflexivity ]. simpl.
  destruct (String.eqb_spec (CurrentText (focusMonitor a)) "") as [E|E].
  - rewrite (interceptHandler_empty _ _ _ E). reflexivity.
  - rewrite (interceptHandler_text _ _ _ E).
    destruct (handlerOutcome validate (focusMonitor a) (Keyboard.ctx (interceptor a)))
      as [[[an|] [e|]]|msg]; reflexivity.
Qed.

Lemma callback_validates_in_line_witness :
  trace (onKeyDown (typing Analyzer.Analyze "hello") returnKey)
  = if reachesHandler (typing Analyzer.Analyze "hello") returnKey
       && negb (String.eqb (CurrentText (focusMonitor (typing Analyzer.Analyze "hello"))) "")
    then ValidateCall
           {| callCtx := Keyboard.ctx (interceptor (typing Analyzer.Analyze "hello"));
              callText := CurrentText (focusMonitor (typing Analyzer.Analyze "hello"));
              callAppCtx :=
                appContextFor (CurrentElement (focusMonitor (typing Analyzer.Analyze "hello"))) |}
           :: match handlerOutcome Analyzer.Analyze
                      (focusMonitor (typing Analyzer.Analyze "hello"))
                      (Keyboard.ctx (interceptor (typing Analyzer.Analyze "hello"))) with
              | Ret out => [ValidateReturn out]
              | Panic _ => []
              end
    else [].
Proof.
  apply (callback_validates_in_line Analyzer.Analyze
           (typing Analyzer.Analyze "hello") returnKey).
  reflexivity.
Defined.

(** ** Trivial content *)

(** The claim C5 as stated fails: the text [ok] is sent to the validator. *)
Lemma short_text_is_validated :
  validatorCalls (trace (onKeyDown (typing Analyzer.Analyze "ok") returnKey))
  = [ {| callCtx := Some liveContext; callText := "ok"; callAppCtx := slackContext |} ]
  /\ result (onKeyDown (typing Analyzer.Analyze "ok") returnKey) = Ret (Some returnKey).
Proof. vm_compute. split; reflexivity. Qed.

(** C5, amended.  For an empty text the handler answers [true] at once and
    the validator is not called.  There is no minimum length: for every
    other text the handler calls the validator, once, with that text; and
    with the program's analyzer the handler answers [true] for every
    text. *)
Theorem only_empty_text_skips_validation :
  forall (validate : Validator) (fm : FocusMonitor) (c : option Context),
    (CurrentText fm = "" -> interceptHandler validate fm c = ([], Ret true))
    /\ (CurrentText fm <> "" ->
        validatorCalls (trace (interceptHandler validate fm c))
        = [ {| callCtx := c; callText := CurrentText fm;
               callAppCtx := appContextFor (CurrentElement fm) |} ])
    /\ result (interceptHandler Analyzer.Analyze fm c) = Ret true.
Proof.
  intros validate fm c. split; [|split].
  - apply interceptHandler_empty.
  - intros E. rewrite interceptHandler_calls.
    apply String.eqb_neq in E. rewrite E. reflexivity.
  - apply interceptHandler_Analyze.
Qed.

Lemma only_empty_text_skips_validation_witness :
  interceptHandler Analyzer.Analyze (focusMonitor (typing Analyzer.Analyze ""))
    (Some liveContext) = ([], Ret true)
  /\ validatorCalls
       (trace (interceptHandler Analyzer.Analyze
                 (focusMonitor (typing Analyzer.Analyze "ok")) (Some liveContext)))
     = [ {| callCtx := Some liveContext;
            callText := CurrentText (focusMonitor (typing Analyzer.Analyze "ok"));
            callAppCtx :=
              appContextFor (CurrentElement (focusMonitor (typing Analyzer.Analyze "ok"))) |} ].
Proof.
  split.
  - apply (proj1 (only_empty_text_skips_validation Analyzer.Analyze
                    (focusMonitor (typing Analyzer.Analyze "")) (Some liveContext))).
    reflexivity.
  - apply (proj1 (proj2 (only_empty_text_skips_validation Analyzer.Analyze
                           (focusMonitor (typing Analyzer.Analyze "ok")) (Some liveContext)))).
    vm_compute. discriminate.
Defined.

(** A text of white space alone is not empty for the handler: it reaches
    the analyzer, which approves it without analysing it. *)
Example blank_text_is_validated :
  trace (onKeyDown (typing Analyzer.Analyze "   ") returnKey)
  = [ValidateCall {| callCtx := Some liveContext; callText := "   ";
                     callAppCtx := slackContext |};
     ValidateReturn (Some {| Analyzer.Approved := true;
                             Analyzer.WordCount := 0;
                             Analyzer.ReadTimeSeconds := 0;
                             Analyzer.GradeLevel := 0;
                             Analyzer.Issues := [];
                             Analyzer.Suggestion := "" |}, None)].
Proof. vm_compute. reflexivity. Qed.

(** ** Releasing the key *)

(** The claim C9 as stated fails: after a first call of [ReleaseEnter] no
    key is held back, and a second call posts a Return key again. *)
Lemma second_release_posts_again :
  pendingIntercepts (trace (releaseTimes (interceptor (boot Analyzer.Analyze)) 1)) = 0
  /\ releaseTimes (interceptor (boot Analyzer.Analyze)) 2
     = ([PostKey 36 true; PostKey 36 false; PostKey 36 true; PostKey 36 false], Ret tt).
Proof. vm_compute. split; reflexivity. Qed.

(** C9, amended.  [ReleaseEnter] takes no key code and keeps no record of
    swallowed keys: every call posts one key-down and one key-up of the
    Return key, whatever the state of the interceptor, so [n] calls post
    [n] such pairs.  A call resolves one held key when one is held. *)
Theorem release_posts_every_time :
  forall (Store : Type) (i : Interceptor Store) (n : nat) (tr : list Action),
    ReleaseEnter i = ([PostKey KeyCodeReturn true; PostKey KeyCodeReturn false], Ret tt)
    /\ releaseTimes i n
       = (concat (repeat [PostKey KeyCodeReturn true; PostKey KeyCodeReturn false] n),
          Ret tt)
    /\ pendingIntercepts (tr ++ trace (ReleaseEnter i))
       = Z.max 0 (pendingIntercepts tr - 1).
Proof.
  intros Store i n tr. split; [reflexivity|split].
  - induction n as [|n IH]; [reflexivity|].
    simpl. rewrite IH. reflexivity.
  - unfold pendingIntercepts. rewrite pendingFrom_app. reflexivity.
Qed.

(** ** Deadlines *)




(** ** Words and white space *)

Lemma append_nil_r : forall s : string, s ++ "" = s.
Proof. induction s as [|c s IH]; simpl; [reflexivity | rewrite IH; reflexivity]. Qed.

Lemma append_assoc : forall a b c : string, (a ++ b) ++ c = a ++ (b ++ c).
Proof. induction a as [|x a IH]; intros; simpl; [reflexivity | rewrite IH; reflexivity]. Qed.

(** A white-space rune found with less text after it is found with more. *)
Lemma spaceWidth_prefix :
  forall u v, Strings.spaceWidth (u ++ v) = 0%nat -> Strings.spaceWidth u = 0%nat.
Proof.
  intros [|c1 [|c2 [|c3 u]]] v; simpl; try reflexivity.
  - destruct (Strings.asciiSpace (Strings.byte c1)); [discriminate|reflexivity].
  - destruct (Strings.asciiSpace (Strings.byte c1)); [discriminate|].
    destruct v as [|c3 v]; simpl; [auto|].
    destruct (Strings.space2 (Strings.byte c1) (Strings.byte c2)); [discriminate|reflexivity].
  - auto.
Qed.

Lemma space2_high :
  forall c1 c2, Strings.space2 (Strings.byte c1) (Strings.byte c2) = true -> ascii7 c2 = false.
Proof.
  intros c1 c2. unfold Strings.space2, ascii7.
  intros H. apply andb_true_iff in H. destruct H as [_ H].
  apply orb_true_iff in H. destruct H as [H|H]; apply N.eqb_eq in H; rewrite H; reflexivity.
Qed.

Lemma space3_high2 :
  forall b1 c2 b3, Strings.space3 b1 (Strings.byte c2) b3 = true -> ascii7 c2 = false.
Proof.
  intros b1 c2 b3. unfold Strings.space3, ascii7. intros H.
  destruct (Strings.byte c2 <? 128)%N eqn:L; [|reflexivity]. exfalso.
  apply N.ltb_lt in L.
  repeat (apply orb_true_iff in H; destruct H as [H|H]);
    repeat (apply andb_true_iff in H; destruct H as [H ?]);
    repeat match goal with
           | X : (_ =? _)%N = true |- _ => apply N.eqb_eq in X
           | X : (_ && _) = true |- _ => apply andb_true_iff in X; destruct X
           end; lia.
Qed.

Lemma space3_high3 :
  forall b1 b2 c3, Strings.space3 b1 b2 (Strings.byte c3) = true -> ascii7 c3 = false.
Proof.
  intros b1 b2 c3. unfold Strings.space3, ascii7. intros H.
  destruct (Strings.byte c3 <? 128)%N eqn:L; [|reflexivity]. exfalso.
  apply N.ltb_lt in L.
  repeat (apply orb_true_iff in H; destruct H as [H|H]);
    repeat (apply andb_true_iff in H; destruct H as [H ?]);
    repeat match goal with
           | X : (_ =? _)%N = true |- _ => apply N.eqb_eq in X
           | X : (_ <=? _)%N = true |- _ => apply N.leb_le in X
           | X : (_ && _) = true |- _ => apply andb_true_iff in X; destruct X
           | X : (_ || _) = true |- _ => apply orb_true_iff in X; destruct X
           end; lia.
Qed.

(** No white-space rune arises at the seam with a text that starts with a
    byte below 128. *)
Lemma spaceWidth_seam :
  forall u t,
    u <> "" -> Strings.spaceWidth u = 0%nat -> asciiLed t = true ->
    Strings.spaceWidth (u ++ t) = 0%nat.
Proof.
  intros [|c1 [|c2 [|c3 u]]] t N H A; simpl in *; try contradiction.
  - destruct (Strings.asciiSpace (Strings.byte c1)); [discriminate|].
    destruct t as [|d1 [|d2 t]]; simpl in *; try reflexivity.
    + destruct (Strings.space2 (Strings.byte c1) (Strings.byte d1)) eqn:S2;
        [apply space2_high in S2; congruence | reflexivity].
    + destruct (Strings.space2 (Strings.byte c1) (Strings.byte d1)) eqn:S2;
        [apply space2_high in S2; congruence | ].
      destruct (Strings.space3 (Strings.byte c1) (Strings.byte d1) (Strings.byte d2)) eqn:S3;
        [apply space3_high2 in S3; congruence | reflexivity].
  - destruct (Strings.asciiSpace (Strings.byte c1)); [discriminate|].
    destruct (Strings.space2 (Strings.byte c1) (Strings.byte c2)); [discriminate|].
    destruct t as [|d1 t]; simpl in *; try reflexivity.
    destruct (Strings.space3 (Strings.byte c1) (Strings.byte c2) (Strings.byte d1)) eqn:S3;
      [apply space3_high3 in S3; congruence | reflexivity].
  - exact H.
Qed.

Lemma openWord_cons :
  forall x r s,
    openWord (String x r) s
    <-> Strings.spaceWidth (String x r ++ s) = 0%nat /\ openWord r s.
Proof. intros. reflexivity. Qed.

Lemma openWord_snoc :
  forall cur c rest,
    openWord cur (String c rest) ->
    Strings.spaceWidth (String c rest) = 0%nat ->
    openWord (cur ++ String c "") rest.
Proof.
  induction cur as [|x cur IH]; intros c rest O W.
  - apply openWord_cons. split; [exact W | exact I].
  - apply openWord_cons in O. destruct O as [O1 O2].
    change (String x cur ++ String c "") with (String x (cur ++ String c "")).
    apply openWord_cons. split; [ | apply IH; assumption ].
    change (String x (cur ++ String c "")) with (String x cur ++ String c "").
    rewrite append_assoc. exact O1.
Qed.

Lemma openWord_close : forall cur s, openWord cur s -> tight cur.
Proof.
  unfold tight. induction cur as [|x cur IH]; intros s O; [exact I|].
  apply openWord_cons in O. destruct O as [O1 O2].
  apply openWord_cons. split; [ | apply (IH s); exact O2 ].
  rewrite append_nil_r.
  apply (spaceWidth_prefix (String x cur) s). exact O1.
Qed.

Lemma tight_open :
  forall w t, tight w -> asciiLed t = true -> openWord w t.
Proof.
  unfold tight. induction w as [|x w IH]; intros t T A; [exact I|].
  apply openWord_cons in T. destruct T as [T1 T2].
  apply openWord_cons. split; [ | apply IH; assumption ].
  apply spaceWidth_seam; [discriminate | | exact A].
  rewrite append_nil_r in T1. exact T1.
Qed.

(** The words of [fieldsFrom] are not empty and hold no white space. *)
Lemma fieldsFrom_tight :
  forall s k cur,
    (k = 0%nat /\ openWord cur s) \/ cur = "" ->
    Forall (fun w => w <> "" /\ tight w) (Strings.fieldsFrom k cur s).
Proof.
  induction s as [|c rest IH]; intros k cur H.
  - cbn [Strings.fieldsFrom]. destruct cur as [|x cur]; [constructor|].
    constructor; [ | constructor ]. split; [discriminate|].
    destruct H as [[_ O]|E]; [ | discriminate ].
    apply (openWord_close _ _ O).
  - destruct k as [|k]; cbn [Strings.fieldsFrom].
    + destruct (Strings.spaceWidth (String c rest)) eqn:W.
      * apply IH. left. split; [reflexivity|].
        destruct H as [[_ O]|E].
        -- apply openWord_snoc; assumption.
        -- subst cur. apply openWord_cons. split; [exact W | exact I].
      * apply Forall_app. split.
        -- destruct cur as [|x cur]; [constructor|].
           constructor; [ | constructor ]. split; [discriminate|].
           destruct H as [[_ O]|E]; [ | discriminate ].
           apply (openWord_close _ _ O).
        -- apply IH. right; reflexivity.
    + destruct H as [[K _]|E]; [discriminate|]. subst cur.
      apply IH. right; reflexivity.
Qed.

Lemma Fields_tight :
  forall s, Forall (fun w => w <> "" /\ tight w) (Strings.Fields s).
Proof. intros s. apply fieldsFrom_tight. right; reflexivity. Qed.

(** Reading a word that stays free of white space before [t] adds the word
    to the field being read. *)
Lemma fieldsFrom_word :
  forall w cur t,
    openWord w t ->
    Strings.fieldsFrom 0 cur (w ++ t) = Strings.fieldsFrom 0 (cur ++ w) t.
Proof.
  induction w as [|x w IH]; intros cur t O.
  - cbn [append]. rewrite append_nil_r. reflexivity.
  - apply openWord_cons in O. destruct O as [O1 O2].
    change (String x w ++ t) with (String x (w ++ t)) in *.
    cbn [Strings.fieldsFrom]. rewrite O1.
    rewrite (IH _ _ O2). rewrite append_assoc. reflexivity.
Qed.

Lemma fieldsFrom_space :
  forall cur t,
    cur <> "" ->
    Strings.fieldsFrom 0 cur (String " " t) = cur :: Strings.fieldsFrom 0 "" t.
Proof.
  intros cur t N. cbn [Strings.fieldsFrom].
  change (Strings.spaceWidth (String " " t)) with 1%nat.
  destruct cur; [contradiction|reflexivity].
Qed.

Lemma append_not_empty_l : forall a b : string, a <> "" -> a ++ b <> "".
Proof. intros [|x a] b H; [contradiction|discriminate]. Qed.

Lemma Fields_Join :
  forall ws tail cur,
    Forall (fun w => w <> "" /\ tight w) ws ->
    tight tail -> asciiLed tail = true ->
    Strings.fieldsFrom 0 cur (Strings.Join ws " " ++ tail)
    = match ws with
      | [] => Strings.fieldsFrom 0 cur tail
      | w :: rest => addToLast ((cur ++ w) :: rest) tail
      end.
Proof.
  induction ws as [|w ws IH]; intros tail cur F T A; [reflexivity|].
  inversion F as [|? ? [Wn Wt] F']; subst.
  destruct ws as [|w2 ws].
  - cbn [Strings.Join addToLast].
    rewrite (fieldsFrom_word w cur tail (tight_open _ _ Wt A)).
    rewrite <- (append_nil_r tail) at 1.
    rewrite (fieldsFrom_word tail (cur ++ w) ""); [ | exact T ].
    cbn [Strings.fieldsFrom]. rewrite append_assoc.
    destruct (cur ++ w ++ tail) eqn:E; [ | reflexivity ].
    exfalso. destruct cur; cbn [append] in E; [ | discriminate ].
    apply (append_not_empty_l w tail Wn E).
  - change (Strings.Join (w :: w2 :: ws) " ") with (w ++ " " ++ Strings.Join (w2 :: ws) " ").
    rewrite !append_assoc.
    rewrite (fieldsFrom_word w cur); [ | apply tight_open; [exact Wt | reflexivity] ].
    change (" " ++ Strings.Join (w2 :: ws) " " ++ tail)
      with (String " " (Strings.Join (w2 :: ws) " " ++ tail)).
    rewrite fieldsFrom_space.
    + rewrite (IH tail "" F' T A). reflexivity.
    + destruct cur; cbn [append]; [exact Wn | discriminate].
Qed.

Lemma addToLast_length :
  forall ws tail, List.length (addToLast ws tail) = List.length ws.
Proof.
  induction ws as [|w [|w2 ws] IH]; intros tail; simpl in *; auto.
Qed.

(** ** The suggestion and the figures of the analysis *)


Lemma Forall_firstn' :
  forall (A : Type) (P : A -> Prop) (n : nat) (l : list A),
    Forall P l -> Forall P (firstn n l).
Proof.
  intros A P. induction n as [|n IH]; intros l F; [constructor|].
  destruct F; simpl; constructor; auto.
Qed.

Lemma Suggestion_Fields :
  forall (c : option Context) (text : string) (appCtx : Analyzer.AppContext)
         (an : Analyzer.Analysis),
    Analyzer.Analyze c text appCtx = Ret (Some an, None) ->
    Analyzer.Approved an = false ->
    Strings.Fields (Analyzer.Suggestion an)
    = addToLast (firstn 50 (Strings.Fields text)) "..."
    /\ exists an',
         Analyzer.Analyze c (Analyzer.Suggestion an) appCtx = Ret (Some an', None)
         /\ Analyzer.WordCount an' = 50
         /\ Analyzer.Approved an' = true
         /\ Analyzer.Suggestion an' = "".
Proof.
  intros c text appCtx an E A. unfold Analyzer.Analyze in E.
  destruct (String.eqb (Strings.TrimSpace text) "");
    [ inversion E; subst an; discriminate | ].
  destruct (mockAnalysis_returns text) as (an0 & E0 & W & AP & S & _).
  rewrite E in E0. inversion E0; subst an0. clear E0.
  rewrite A in S. rewrite A in AP. symmetry in AP. apply Z.leb_gt in AP. rewrite W in AP.
  assert (F : Strings.Fields (Analyzer.Suggestion an)
              = addToLast (firstn 50 (Strings.Fields text)) "...").
  { rewrite S. unfold Strings.Fields at 1.
    rewrite Fields_Join;
      [ | apply Forall_firstn'; apply Fields_tight | repeat split | reflexivity ].
    destruct (firstn 50 (Strings.Fields text)) eqn:FN; [ | reflexivity ].
    apply (f_equal (@List.length string)) in FN.
    rewrite length_firstn in FN. cbn [List.length] in FN. lia. }
  split; [exact F|].
  assert (N : List.length (Strings.Fields (Analyzer.Suggestion an)) = 50%nat).
  { rewrite F, addToLast_length, length_firstn. lia. }
  unfold Analyzer.Analyze.
  destruct (String.eqb_spec (Strings.TrimSpace (Analyzer.Suggestion an)) "") as [B|B].
  - apply TrimSpace_blank in B. rewrite B in N. discriminate.
  - destruct (mockAnalysis_returns (Analyzer.Suggestion an))
      as (an' & E' & W' & AP' & S' & _).
    exists an'. rewrite N in W'. rewrite W' in AP'. rewrite AP' in S'. auto.
Qed.

(** X13.  For a text of more than 100 words, the suggestion has the first
    50 words of the text, the last with three dots added; analysed in its
    turn it has 50 words, is approved, gets no suggestion and no issues
    but those of the passive-voice check. *)
Theorem suggestion_is_approved :
  forall (c : option Context) (text : string) (appCtx : Analyzer.AppContext),
    100 < Z.of_nat (List.length (Strings.Fields text)) ->
    exists an an',
      Analyzer.Analyze c text appCtx = Ret (Some an, None)
      /\ Analyzer.Approved an = false
      /\ Strings.Fields (Analyzer.Suggestion an)
         = addToLast (firstn 50 (Strings.Fields text)) "..."
      /\ Analyzer.Analyze c (Analyzer.Suggestion an) appCtx = Ret (Some an', None)
      /\ Analyzer.WordCount an' = 50
      /\ Analyzer.Approved an' = true
      /\ Analyzer.Issues an'
         = Analyzer.passiveIssues (Strings.ToLower (Analyzer.Suggestion an))
      /\ Analyzer.Suggestion an' = "".
Proof.
  intros c text appCtx L.
  assert (E : exists an, Analyzer.Analyze c text appCtx = Ret (Some an, None)
                         /\ Analyzer.Approved an = false).
  { unfold Analyzer.Analyze.
    destruct (String.eqb_spec (Strings.TrimSpace text) "") as [B|B].
    - apply TrimSpace_blank in B. rewrite B in L. simpl in L. lia.
    - destruct (mockAnalysis_returns text) as (an & E & W & A & _).
      exists an. split; [exact E|]. rewrite A, W. apply Z.leb_gt. exact L. }
  destruct E as (an & E & A).
  destruct (Suggestion_Fields c text appCtx an E A) as (F & an' & E' & W' & A' & S').
  exists an, an'. repeat split; auto.
  unfold Analyzer.Analyze in E'.
  destruct (String.eqb (Strings.TrimSpace (Analyzer.Suggestion an)) "");
    [ inversion E'; subst an'; discriminate | ].
  destruct (mockAnalysis_returns (Analyzer.Suggestion an)) as (an0 & E0 & _ & _ & _ & I).
  rewrite E' in E0. inversion E0; subst an0. rewrite I, A'. reflexivity.
Qed.

Lemma suggestion_is_approved_witness :
  exists an an',
    Analyzer.Analyze None longMessage noContext = Ret (Some an, None)
    /\ Analyzer.Approved an = false
    /\ Strings.Fields (Analyzer.Suggestion an)
       = addToLast (firstn 50 (Strings.Fields longMessage)) "..."
    /\ Analyzer.Analyze None (Analyzer.Suggestion an) noContext = Ret (Some an', None)
    /\ Analyzer.WordCount an' = 50
    /\ Analyzer.Approved an' = true
    /\ Analyzer.Issues an'
       = Analyzer.passiveIssues (Strings.ToLower (Analyzer.Suggestion an))
    /\ Analyzer.Suggestion an' = "".
Proof.
  apply (suggestion_is_approved None longMessage noContext).
  vm_compute. reflexivity.
Defined.

(** *** Substrings *)

Lemma prefix_append :
  forall p s, String.prefix p s = true <-> exists r, s = p ++ r.
Proof.
  induction p as [|x p IH]; intros s.
  - split; [intros _; exists s; reflexivity | intros _; destruct s; reflexivity].
  - destruct s as [|y s]; simpl.
    + split; [discriminate | intros [r H]; discriminate].
    + destruct (Ascii.ascii_dec x y) as [E|E].
      * subst y. rewrite IH. split; intros [r H]; exists r.
        -- rewrite H; reflexivity.
        -- inversion H; reflexivity.
      * split; [discriminate | intros [r H]; inversion H; congruence].
Qed.

Lemma Contains_spec :
  forall s sub,
    Strings.Contains s sub = true <-> exists l r, s = l ++ sub ++ r.
Proof.
  induction s as [|c s IH]; intros sub.
  - cbn [Strings.Contains]. rewrite orb_false_r, prefix_append. split.
    + intros [r H]. exists "", r. exact H.
    + intros (l & r & H). destruct l; [exists r; exact H | discriminate].
  - cbn [Strings.Contains]. rewrite orb_true_iff, prefix_append, IH. split.
    + intros [[r H]|(l & r & H)].
      * exists "", r. exact H.
      * exists (String c l), r. rewrite H. reflexivity.
    + intros (l & r & H). destruct l as [|x l].
      * left. exists r. exact H.
      * right. inversion H. exists l, r. reflexivity.
Qed.

(** A text that contains [a] contains what [a] contains. *)
Lemma Contains_trans :
  forall s a b,
    Strings.Contains s a = true -> Strings.Contains a b = true ->
    Strings.Contains s b = true.
Proof.
  intros s a b H1 H2. apply Contains_spec in H1, H2. apply Contains_spec.
  destruct H1 as (l1 & r1 & E1). destruct H2 as (l2 & r2 & E2).
  exists (l1 ++ l2), (r2 ++ r1). subst s a. rewrite !append_assoc. reflexivity.
Qed.

(** X14.  The issues of [mockAnalysis] are the length issue, exactly when
    the analysis is not approved, followed by the passive-voice issue,
    exactly when the lower-cased text contains one of was, were, been and
    being between two spaces: the indicators is being and are being never
    decide. *)
Theorem passive_check_by_four_indicators :
  forall (text : string),
    exists an,
      Analyzer.mockAnalysis text = Ret (Some an, None)
      /\ Analyzer.Issues an
         = ((if Analyzer.Approved an then [] else ["message is quite long"])
            ++ (if existsb (fun indicator =>
                              Strings.Contains (Strings.ToLower text)
                                (" " ++ indicator ++ " "))
                     decisiveIndicators
                then ["possible passive voice detected"] else []))%list
      /\ (List.length (Analyzer.Issues an) <= 2)%nat
      /\ (In "message is quite long" (Analyzer.Issues an)
          <-> Analyzer.Approved an = false).
Proof.
  intros text.
  destruct (mockAnalysis_returns text) as (an & E & _ & _ & _ & I).
  exists an. split; [exact E|].
  assert (P : Analyzer.passiveIssues (Strings.ToLower text)
              = if existsb (fun indicator =>
                              Strings.Contains (Strings.ToLower text)
                                (" " ++ indicator ++ " "))
                     decisiveIndicators
                then ["possible passive voice detected"] else []).
  { unfold Analyzer.passiveIssues, Analyzer.passiveIndicators, decisiveIndicators.
    cbn [existsb].
    set (lt := Strings.ToLower text).
    destruct (Strings.Contains lt (" " ++ "being" ++ " ")) eqn:B.
    - destruct (Strings.Contains lt (" " ++ "was" ++ " ")),
        (Strings.Contains lt (" " ++ "were" ++ " ")),
        (Strings.Contains lt (" " ++ "been" ++ " ")); reflexivity.
    - assert (B1 : Strings.Contains lt (" " ++ "is being" ++ " ") = false).
      { destruct (Strings.Contains lt (" " ++ "is being" ++ " ")) eqn:X; [|reflexivity].
        rewrite <- B. symmetry. apply (Contains_trans _ _ _ X). reflexivity. }
      assert (B2 : Strings.Contains lt (" " ++ "are being" ++ " ") = false).
      { destruct (Strings.Contains lt (" " ++ "are being" ++ " ")) eqn:X; [|reflexivity].
        rewrite <- B. symmetry. apply (Contains_trans _ _ _ X). reflexivity. }
      rewrite B1, B2. reflexivity. }
  rewrite I, P. split; [reflexivity|].
  destruct (Analyzer.Approved an);
    destruct (existsb _ decisiveIndicators); simpl; repeat split;
      try lia; try discriminate; auto;
      intros H; repeat (destruct H as [H|H]; try discriminate); try contradiction.
Qed.





(** ** The target list *)

Lemma lookup_fold :
  forall targets acc key,
    Apps.lookup
      (fold_left (fun ids t => (Apps.BundleID t, true) :: ids) targets acc) key
    = existsb (fun t => String.eqb (Apps.BundleID t) key) targets
      || Apps.lookup acc key.
Proof.
  induction targets as [|t ts IH]; intros acc key; [reflexivity|].
  simpl. rewrite IH. simpl.
  destruct (String.eqb (Apps.BundleID t) key); simpl;
    [ rewrite orb_true_r; reflexivity | reflexivity ].
Qed.

Lemma IsTargetApp_FindTarget :
  forall (bundleID : string),
    Apps.IsTargetApp bundleID
    = (match Apps.FindTarget bundleID with Some _ => true | None => false end)
    /\ (forall t, Apps.FindTarget bundleID = Some t ->
                  Apps.BundleID t = bundleID /\ In t Apps.DefaultTargets).
Proof.
  intros bundleID. unfold Apps.IsTargetApp, Apps.TargetBundleIDs, Apps.FindTarget.
  rewrite lookup_fold. simpl Apps.lookup. rewrite orb_false_r. split.
  - induction Apps.DefaultTargets as [|t ts IH]; [reflexivity|].
    simpl. destruct (String.eqb (Apps.BundleID t) bundleID); [reflexivity | exact IH].
  - intros t H. apply find_some in H. destruct H as [I E].
    apply String.eqb_eq in E. auto.
Qed.

(** X3.  [IsTargetApp] and [FindTarget] agree on every bundle identifier:
    the map of [TargetBundleIDs] holds an identifier exactly when
    [FindTarget] finds a target, and the target found has that identifier
    and is one of [DefaultTargets]. *)
Theorem target_lookup_agrees_with_find :
  forall (bundleID : string),
    Apps.IsTargetApp bundleID
    = (match Apps.FindTarget bundleID with Some _ => true | None => false end)
    /\ (forall t, Apps.FindTarget bundleID = Some t ->
                  Apps.BundleID t = bundleID /\ In t Apps.DefaultTargets).
Proof. exact IsTargetApp_FindTarget. Qed.

(** ** What the validator is called with *)









(** ** Every key goes on *)

Lemma passedKeys_app :
  forall tr tr', passedKeys (tr ++ tr') = (passedKeys tr ++ passedKeys tr')%list.
Proof. intros. unfold passedKeys. apply flat_map_app. Qed.

Lemma passedKeys_onKeyDown :
  forall validate a event,
    wired validate a -> passedKeys (trace (onKeyDown a event)) = [].
Proof.
  intros validate a event W. rewrite (onKeyDown_trace validate a event W).
  destruct (reachesHandler a event); [ | reflexivity ].
  destruct (String.eqb_spec (CurrentText (focusMonitor a)) "") as [E|E].
  - rewrite (interceptHandler_empty _ _ _ E). reflexivity.
  - rewrite (interceptHandler_text _ _ _ E).
    destruct (handlerOutcome validate (focusMonitor a) (Keyboard.ctx (interceptor a)))
      as [[[an|] [e|]]|msg]; reflexivity.
Qed.

Lemma Serial_untouched :
  forall tr, Serial tr -> untouched tr = true.
Proof.
  induction 1; simpl; auto.
Qed.

(** With the program's analyzer a step never panics, and hands back the key
    of a key-down event. *)
Lemma step_Analyze :
  forall a ev,
    wired Analyzer.Analyze a ->
    exists a',
      result (step a ev) = Ret a'
      /\ passedKeys (trace (step a ev)) = keyDowns [ev].
Proof.
  intros a ev W. destruct ev as [focusedElem|text|event|action].
  - simpl. destruct (ctxErr (rootCtx a)); [eexists; split; reflexivity|].
    destruct (negb (running (focusMonitor a))); [eexists; split; reflexivity|].
    destruct (pollTick (focusMonitor a) focusedElem). eexists; split; reflexivity.
  - simpl. destruct (currentElement (focusMonitor a)); eexists; split; reflexivity.
  - assert (R : result (onKeyDown a event) = Ret (Some event)).
    { apply (onKeyDown_released Analyzer.Analyze); [exact W|].
      apply interceptHandler_Analyze. }
    rewrite (step_KeyDown_passes a event R). exists a. split; [reflexivity|].
    cbn [trace fst]. change (KeyArrives (keycode event) (flags event) :: ?x)
      with ([KeyArrives (keycode event) (flags event)] ++ x)%list.
    rewrite !passedKeys_app, (passedKeys_onKeyDown Analyzer.Analyze a event W).
    reflexivity.
  - simpl. eexists; split; reflexivity.
Qed.

Lemma run_Analyze :
  forall evs a,
    sound Analyzer.Analyze a ->
    exists a',
      result (run a evs) = Ret a'
      /\ passedKeys (trace (run a evs)) = keyDowns evs
      /\ untouched (trace (run a evs)) = true.
Proof.
  induction evs as [|ev evs IH]; intros a S; [exists a; repeat split|].
  assert (U : untouched (trace (run a (ev :: evs))) = true).
  { apply Serial_untouched. apply (run_serial Analyzer.Analyze). exact S. }
  destruct (step_Analyze a ev (proj1 S)) as (a1 & R1 & P1).
  pose proof (step_sound Analyzer.Analyze a ev a1 S R1) as S1.
  destruct (IH a1 S1) as (a2 & R2 & P2 & _).
  exists a2. split; [ | split; [ | exact U ] ].
  - simpl. destruct (step a ev) as [tr r]. simpl in R1. subst r. simpl.
    destruct (run a1 evs) as [tr' r']. simpl in *. exact R2.
  - simpl run. destruct (step a ev) as [tr r]. simpl in R1, P1. subst r.
    cbn [bind]. destruct (run a1 evs) as [tr' r']. cbn [trace fst] in *.
    rewrite passedKeys_app, P1, P2.
    change (ev :: evs) with ([ev] ++ evs)%list.
    unfold keyDowns. rewrite flat_map_app. reflexivity.
Qed.

(** X5.  With the program's analyzer the program never panics, hands back
    every key-down event it is given, unchanged and in order, and never
    swallows a key, writes to a field or posts a key. *)
Theorem every_key_goes_on :
  forall (evs : list Event),
    exists a,
      result (run (boot Analyzer.Analyze) evs) = Ret a
      /\ passedKeys (trace (run (boot Analyzer.Analyze) evs)) = keyDowns evs
      /\ untouched (trace (run (boot Analyzer.Analyze) evs)) = true.
Proof.
  intros evs. apply run_Analyze. apply boot_sound.
Qed.

(** ** Off means inert *)




(** ** The menu item *)


(** ** The focus poll *)

Lemma pollTick_turn :
  forall m focused m' cbs,
    pollTick m focused = (m', cbs) ->
    takesTurns (lastWasTextField m) cbs = true
    /\ inFieldAfter (lastWasTextField m) cbs = lastWasTextField m'
    /\ forallb (focusOnTarget (targetBundleIDs m)) cbs = true
    /\ targetBundleIDs m' = targetBundleIDs m
    /\ (lastWasTextField m = Accessibility.IsMonitoring m ->
        lastWasTextField m' = Accessibility.IsMonitoring m').
Proof.
  intros m [f|] m' cbs P; unfold pollTick in P.
  - inversion P; subst; clear P. unfold Accessibility.IsMonitoring.
    cbn [focusOnTarget forallb lastWasTextField targetBundleIDs currentElement].
    destruct (Apps.lookup (targetBundleIDs m) (bundleID f)) eqn:LK,
      (IsTextField f) eqn:TF, (lastWasTextField m), (currentElement m);
      cbn; rewrite ?LK, ?TF, ?String.eqb_refl; repeat split; auto;
      try (intros H; discriminate H).
  - inversion P; subst. repeat split; auto.
Qed.

Lemma takesTurns_app :
  forall cbs cbs' inField,
    takesTurns inField cbs = true ->
    takesTurns (inFieldAfter inField cbs) cbs' = true ->
    takesTurns inField (cbs ++ cbs') = true.
Proof.
  induction cbs as [|cb cbs IH]; intros cbs' inField H1 H2; [exact H2|].
  destruct cb; simpl in *; apply andb_true_iff in H1; destruct H1 as [A B];
    rewrite A; simpl; apply IH; auto.
Qed.

Lemma inFieldAfter_app :
  forall cbs cbs' inField,
    inFieldAfter inField (cbs ++ cbs') = inFieldAfter (inFieldAfter inField cbs) cbs'.
Proof. intros. unfold inFieldAfter. apply fold_left_app. Qed.

Lemma pollLoop_turns :
  forall ticks m,
    let '(m', cbs) := pollLoop m ticks in
    takesTurns (lastWasTextField m) cbs = true
    /\ inFieldAfter (lastWasTextField m) cbs = lastWasTextField m'
    /\ forallb (focusOnTarget (targetBundleIDs m)) cbs = true
    /\ targetBundleIDs m' = targetBundleIDs m
    /\ (lastWasTextField m = Accessibility.IsMonitoring m ->
        lastWasTextField m' = Accessibility.IsMonitoring m').
Proof.
  induction ticks as [|focused ticks IH]; intros m; [simpl; repeat split; auto|].
  cbn [pollLoop].
  destruct (pollTick m focused) as [m1 cbs] eqn:P.
  specialize (IH m1). destruct (pollLoop m1 ticks) as [m2 cbs'].
  destruct (pollTick_turn _ _ _ _ P) as (T1 & A1 & F1 & G1 & C1).
  destruct IH as (T2 & A2 & F2 & G2 & C2).
  split; [ | split; [ | split; [ | split ] ] ].
  - apply takesTurns_app; [exact T1 | rewrite A1; exact T2].
  - rewrite inFieldAfter_app, A1. exact A2.
  - rewrite forallb_app, F1. rewrite G1 in F2. rewrite F2. reflexivity.
  - rewrite G2. exact G1.
  - auto.
Qed.

(** X8.  Over any sequence of ticks, the poll loop of a new monitor fires
    focus and blur in turns, starting with a focus; every focus carries a
    text field of a target with its bundle identifier; and [IsMonitoring]
    is true in the end exactly when the last callback was a focus. *)
Theorem focus_and_blur_take_turns :
  forall (targets : Apps.BoolMap) (ticks : list (option Element)),
    let m := fst (pollLoop (NewFocusMonitor targets) ticks) in
    let cbs := snd (pollLoop (NewFocusMonitor targets) ticks) in
    takesTurns false cbs = true
    /\ forallb (focusOnTarget targets) cbs = true
    /\ Accessibility.IsMonitoring m = inFieldAfter false cbs.
Proof.
  intros targets ticks.
  pose proof (pollLoop_turns ticks (NewFocusMonitor targets)) as H.
  destruct (pollLoop (NewFocusMonitor targets) ticks) as [m cbs].
  destruct H as (T & A & F & _ & C). simpl in *.
  repeat split; auto. rewrite A. symmetry. apply C. reflexivity.
Qed.

(** ** The event tap *)




(** ** Stopping the focus monitor *)

(** X10.  [Stop] on a running monitor ends it and drops the current
    element, and a second [Stop] does nothing; but [Stop] closes the one
    channel the monitor was made with, so after any later [Start] the next
    [Stop] panics. *)
Theorem stop_after_restart_panics :
  forall (s : Stoppable),
    running (monitor s) = true ->
    stopChClosed s = false ->
    exists s1,
      Stop s = Ret s1
      /\ running (monitor s1) = false
      /\ Accessibility.IsMonitoring (monitor s1) = false
      /\ Stop s1 = Ret s1
      /\ forall axEnabled,
           Stop (fst (fst (StartMonitor s1 axEnabled)))
           = Panic "close of closed channel".
Proof.
  intros [m closed] R C. simpl in *. subst closed.
  unfold Stop. simpl. rewrite R. simpl.
  eexists. split; [reflexivity|]. simpl. repeat split.
  intros [|]; reflexivity.
Qed.

Lemma stop_after_restart_panics_witness :
  exists s1,
    Stop {| monitor := fst (Accessibility.Start (NewFocusMonitor Apps.TargetBundleIDs) true);
            stopChClosed := false |} = Ret s1
    /\ running (monitor s1) = false
    /\ Accessibility.IsMonitoring (monitor s1) = false
    /\ Stop s1 = Ret s1
    /\ forall axEnabled,
         Stop (fst (fst (StartMonitor s1 axEnabled)))
         = Panic "close of closed channel".
Proof.
  apply (stop_after_restart_panics
           {| monitor := fst (Accessibility.Start (NewFocusMonitor Apps.TargetBundleIDs) true);
              stopChClosed := false |}).
  - reflexivity.
  - reflexivity.
Defined.

(** X11.  When [Start] fails for want of the accessibility permission it
    has already marked the monitor as running: every later [Start]
    returns [nil] and launches no poll loop, the permission granted or
    not. *)
Theorem failed_start_is_not_retried :
  forall (s : Stoppable),
    running (monitor s) = false ->
    exists s1 err,
      StartMonitor s false = (s1, Some err, false)
      /\ Accessibility.IsMonitoring (monitor s1) = Accessibility.IsMonitoring (monitor s)
      /\ forall axEnabled, StartMonitor s1 axEnabled = (s1, None, false).
Proof.
  intros [m closed] R. simpl in R. unfold StartMonitor, Accessibility.Start.
  cbn [monitor stopChClosed]. rewrite R. cbn.
  eexists. eexists. split; [reflexivity|]. split; [reflexivity|].
  intros axEnabled. reflexivity.
Qed.

Lemma failed_start_is_not_retried_witness :
  exists s1 err,
    StartMonitor {| monitor := NewFocusMonitor Apps.TargetBundleIDs;
                    stopChClosed := false |} false = (s1, Some err, false)
    /\ Accessibility.IsMonitoring (monitor s1)
       = Accessibility.IsMonitoring (NewFocusMonitor Apps.TargetBundleIDs)
    /\ forall axEnabled, StartMonitor s1 axEnabled = (s1, None, false).
Proof.
  apply (failed_start_is_not_retried
           {| monitor := NewFocusMonitor Apps.TargetBundleIDs; stopChClosed := false |}).
  reflexivity.
Defined.

(** ** Truncation for the log *)

Lemma length_append :
  forall a b : string, String.length (a ++ b) = (String.length a + String.length b)%nat.
Proof. induction a as [|x a IH]; intros b; simpl; [reflexivity | rewrite IH; reflexivity]. Qed.

Lemma length_substring0 :
  forall n s, (n <= String.length s)%nat -> String.length (substring 0 n s) = n.
Proof.
  induction n as [|n IH]; intros s H.
  - destruct s; reflexivity.
  - destruct s as [|c s]; simpl in *; [lia|]. rewrite IH; [reflexivity|lia].
Qed.

Lemma substring0_append :
  forall n s t,
    (n <= String.length s)%nat ->
    substring 0 n (substring 0 n s ++ t) = substring 0 n s.
Proof.
  induction n as [|n IH]; intros s t H.
  - destruct s; simpl; destruct t; reflexivity.
  - destruct s as [|c s]; simpl in *; [lia|]. rewrite IH; [reflexivity|lia].
Qed.

Lemma prefix_substring0 :
  forall n s t, String.prefix (substring 0 n s) (substring 0 n s ++ t) = true
                /\ String.prefix (substring 0 n s) s = true.
Proof.
  induction n as [|n IH]; intros s t.
  - destruct s; simpl; destruct t; split; reflexivity.
  - destruct s as [|c s]; simpl; [destruct t; split; reflexivity|].
    destruct (Ascii.ascii_dec c c); [apply IH | contradiction].
Qed.

(** X12.  [truncate] panics for a negative length and a text of any
    length; for a length that is not negative it returns a text of at most
    [maxLen + 3] bytes that starts with the first [maxLen] bytes of the
    text, and truncating the result again changes nothing. *)
Theorem truncate_bounds :
  forall (s : string) (maxLen : Z),
    if maxLen <? 0
    then truncate s maxLen = Panic "slice bounds out of range"
    else truncate s maxLen = Ret (truncated s maxLen)
         /\ Z.of_nat (String.length (truncated s maxLen)) <= maxLen + 3
         /\ String.prefix (substring 0 (Z.to_nat maxLen) s) (truncated s maxLen) = true
         /\ truncate (truncated s maxLen) maxLen = Ret (truncated s maxLen).
Proof.
  intros s maxLen. unfold truncate, truncated, sliceStringTo.
  destruct (Z.ltb_spec maxLen 0) as [N|N].
  - destruct (Z.leb_spec (Z.of_nat (String.length s)) maxLen); [lia|].
    destruct (Z.leb_spec 0 maxLen); [lia|]. reflexivity.
  - destruct (Z.leb_spec (Z.of_nat (String.length s)) maxLen) as [F|F].
    + repeat split; try lia.
      * apply prefix_substring0 with (t := "").
      * destruct (Z.leb_spec (Z.of_nat (String.length s)) maxLen); [reflexivity|lia].
    + destruct (Z.leb_spec 0 maxLen); [|lia].
      destruct (Z.leb_spec maxLen (Z.of_nat (String.length s))); [|lia]. simpl.
      assert (L : String.length (substring 0 (Z.to_nat maxLen) s) = Z.to_nat maxLen).
      { apply length_substring0. lia. }
      repeat split.
      * rewrite length_append, L. simpl. lia.
      * apply prefix_substring0.
      * rewrite length_append, L.
        destruct (Z.leb_spec (Z.of_nat (Z.to_nat maxLen + String.length "...")) maxLen);
          [simpl in *; lia|].
        destruct (Z.leb_spec maxLen (Z.of_nat (Z.to_nat maxLen + String.length "...")));
          [|simpl in *; lia]. simpl.
        rewrite substring0_append; [reflexivity|lia].
Qed.
